(** * Selective-Repeat sender and receiver of [Protocol_SR.py]

    A shallow embedding of the two SimPy classes [rdt_Sender] and
    [rdt_Receiver].  Every method becomes a computation in a small
    state-and-exception monad over a record holding the instance
    attributes.  The collaborators the classes only talk to are kept as
    logs inside that record:
    - [channel] is the list of packets handed to [channel.udt_send],
      oldest first;
    - [receiving_app] is the list of payloads handed to
      [receiving_app.deliver_data], oldest first;
    - [env] is the table of timer processes created through
      [env.process], indexed by creation order.
    The [print] calls, the only readers of [env.now], are left out. *)

From Stdlib Require Import ZArith Lia List String.
From stdpp Require Import base gmap list strings.

Local Open Scope Z_scope.

(** ** Python outcomes *)

Inductive exn : Type :=
| ZeroDivisionError
| KeyError (k : Z)
| RuntimeError.

Inductive outcome (A : Type) : Type :=
| Return (a : A)
| Raise (e : exn).
Arguments Return {A} a.
Arguments Raise {A} e.

(** A method body: it reads and mutates the instance, and either returns
    or raises.  Mutations made before a raise stay in the state. *)
Definition M (St A : Type) : Type := St -> outcome A * St.

Definition ret {St A} (a : A) : M St A := fun s => (Return a, s).

Definition bind {St A B} (m : M St A) (f : A -> M St B) : M St B :=
  fun s => match m s with
           | (Return a, s') => f a s'
           | (Raise e, s') => (Raise e, s')
           end.

Definition get {St} : M St St := fun s => (Return s, s).
Definition put {St} (s' : St) : M St unit := fun _ => (Return tt, s').
Definition modify {St} (f : St -> St) : M St unit := fun s => (Return tt, f s).
Definition liftE {St A} (o : outcome A) : M St A := fun s => (o, s).

Notation "'let*' x ':=' c1 'in' c2" := (bind c1 (fun x => c2))
  (at level 10, x name, c1 at level 100, c2 at level 200).
Notation "c1 '>>' c2" := (bind c1 (fun _ => c2))
  (at level 90, right associativity).

(** [a % b] on Python integers: floor modulus, raising on a zero divisor.
    [Z.modulo] has the same sign convention. *)
Definition py_mod (a b : Z) : outcome Z :=
  if b =? 0 then Raise ZeroDivisionError else Return (a mod b).

(** [range(lo, hi)] *)
Definition range (lo hi : Z) : list Z :=
  map (fun i => lo + Z.of_nat i) (seq 0 (Z.to_nat (hi - lo))).

(** A list comprehension [[f i for i in l]] whose body may raise. *)
Fixpoint comprehension {A B} (f : A -> outcome B) (l : list A) : outcome (list B) :=
  match l with
  | [] => Return []
  | x :: l' =>
      match f x with
      | Raise e => Raise e
      | Return y =>
          match comprehension f l' with
          | Raise e => Raise e
          | Return ys => Return (y :: ys)
          end
      end
  end.

(** [[(base + i) % K for i in range(0, N)]], the expression both classes
    use for their current window. *)
Definition window (base N K : Z) : outcome (list Z) :=
  comprehension (fun i => py_mod (base + i) K) (range 0 N).

(** [x in l] for a list of integers. *)
Definition py_in (x : Z) (l : list Z) : bool := existsb (Z.eqb x) l.

(** ** Packets *)

(** Modelled from the spec: the [Packet] class is imported from a module
    that is not part of the sources.  The spec gives its fields
    (seq_num, payload, length, corrupted); the constructor is called with
    the first three and a fresh packet is not corrupted. *)
Record Packet : Type := mkPacket {
  seq_num : Z;
  payload : string;
  packet_length : Z;
  corrupted : bool
}.

Definition new_Packet (seq_num : Z) (payload : string) (packet_length : Z) : Packet :=
  mkPacket seq_num payload packet_length false.

(** ** Timer processes

    [env.process(self.timer_behavior(seq_num))] creates a SimPy process.
    The generator has one suspension point, so a process is in one of
    these states.  [triggered] is SimPy's attribute of that name: the
    process event is triggered once the generator has returned. *)
Inductive pstate : Type :=
| Created                      (* scheduled, generator not started yet *)
| Waiting                      (* suspended at [yield env.timeout(...)] *)
| Interrupted (started : bool) (* [interrupt()] called, not yet delivered *)
| Triggered.                   (* generator has returned *)

Definition is_triggered (p : pstate) : bool :=
  match p with Triggered => true | _ => false end.

(** [d[k]] and [del d[k]] on a dict with integer keys. *)
Definition py_getitem {V} (k : Z) (d : gmap Z V) : outcome V :=
  match d !! k with
  | Some v => Return v
  | None => Raise (KeyError k)
  end.

Definition py_del {V} (k : Z) (d : gmap Z V) : outcome (gmap Z V) :=
  match d !! k with
  | Some _ => Return (delete k d)
  | None => Raise (KeyError k)
  end.

(** ** Vocabulary for window slides

    A slide visits [base], [(base + 1) % K], ... in this order. *)
Fixpoint bases (k b : Z) (n : nat) : list Z :=
  match n with
  | O => []
  | S n' => b :: bases k ((b + 1) mod k) n'
  end.

(** The value of [base] after [n] iterations. *)
Fixpoint base_after (k b : Z) (n : nat) : Z :=
  match n with
  | O => b
  | S n' => base_after k ((b + 1) mod k) n'
  end.

(** The dict after [del d[k]] for each [k] of [ks], in order. *)
Definition delete_all {V} (ks : list Z) (d : gmap Z V) : gmap Z V :=
  fold_left (fun d k => delete k d) ks d.

(** ** The sender *)

Module rdt_Sender.

Record state : Type := mkState {
  env : list (Z * pstate);
  channel : list Packet;
  data_packet_length : Z;
  timeout_value : Z;
  N : Z;
  K : Z;
  base : Z;
  nextseqnum : Z;
  sndpkt : gmap Z Packet;
  acknowledged : gmap Z bool;
  total_packets_sent : Z;
  num_retransmissions : Z;
  timers : gmap Z nat;
  timer_is_running : bool
}.

Definition set_env v s :=
  mkState v (channel s) (data_packet_length s) (timeout_value s) (N s) (K s)
    (base s) (nextseqnum s) (sndpkt s) (acknowledged s) (total_packets_sent s)
    (num_retransmissions s) (timers s) (timer_is_running s).
Definition set_channel v s :=
  mkState (env s) v (data_packet_length s) (timeout_value s) (N s) (K s)
    (base s) (nextseqnum s) (sndpkt s) (acknowledged s) (total_packets_sent s)
    (num_retransmissions s) (timers s) (timer_is_running s).
Definition set_N v s :=
  mkState (env s) (channel s) (data_packet_length s) (timeout_value s) v (K s)
    (base s) (nextseqnum s) (sndpkt s) (acknowledged s) (total_packets_sent s)
    (num_retransmissions s) (timers s) (timer_is_running s).
Definition set_K v s :=
  mkState (env s) (channel s) (data_packet_length s) (timeout_value s) (N s) v
    (base s) (nextseqnum s) (sndpkt s) (acknowledged s) (total_packets_sent s)
    (num_retransmissions s) (timers s) (timer_is_running s).
Definition set_base v s :=
  mkState (env s) (channel s) (data_packet_length s) (timeout_value s) (N s) (K s)
    v (nextseqnum s) (sndpkt s) (acknowledged s) (total_packets_sent s)
    (num_retransmissions s) (timers s) (timer_is_running s).
Definition set_nextseqnum v s :=
  mkState (env s) (channel s) (data_packet_length s) (timeout_value s) (N s) (K s)
    (base s) v (sndpkt s) (acknowledged s) (total_packets_sent s)
    (num_retransmissions s) (timers s) (timer_is_running s).
Definition set_sndpkt v s :=
  mkState (env s) (channel s) (data_packet_length s) (timeout_value s) (N s) (K s)
    (base s) (nextseqnum s) v (acknowledged s) (total_packets_sent s)
    (num_retransmissions s) (timers s) (timer_is_running s).
Definition set_acknowledged v s :=
  mkState (env s) (channel s) (data_packet_length s) (timeout_value s) (N s) (K s)
    (base s) (nextseqnum s) (sndpkt s) v (total_packets_sent s)
    (num_retransmissions s) (timers s) (timer_is_running s).
Definition set_total_packets_sent v s :=
  mkState (env s) (channel s) (data_packet_length s) (timeout_value s) (N s) (K s)
    (base s) (nextseqnum s) (sndpkt s) (acknowledged s) v
    (num_retransmissions s) (timers s) (timer_is_running s).
Definition set_num_retransmissions v s :=
  mkState (env s) (channel s) (data_packet_length s) (timeout_value s) (N s) (K s)
    (base s) (nextseqnum s) (sndpkt s) (acknowledged s) (total_packets_sent s)
    v (timers s) (timer_is_running s).
Definition set_timers v s :=
  mkState (env s) (channel s) (data_packet_length s) (timeout_value s) (N s) (K s)
    (base s) (nextseqnum s) (sndpkt s) (acknowledged s) (total_packets_sent s)
    (num_retransmissions s) v (timer_is_running s).
Definition set_timer_is_running v s :=
  mkState (env s) (channel s) (data_packet_length s) (timeout_value s) (N s) (K s)
    (base s) (nextseqnum s) (sndpkt s) (acknowledged s) (total_packets_sent s)
    (num_retransmissions s) (timers s) v.

(** [__init__].  The environment passed in has no timer process yet; the
    channel, which the test bench attaches right after construction, has
    been handed no packet yet. *)
Definition init : state := {|
  env := [];
  channel := [];
  data_packet_length := 10;
  timeout_value := 10;
  N := 16;
  K := 16;
  base := 1;
  nextseqnum := 1;
  sndpkt := ∅;
  acknowledged := ∅;
  total_packets_sent := 0;
  num_retransmissions := 0;
  timers := ∅;
  timer_is_running := false
|}.

(** [N] and [K] are plain attributes: a test bench picks another window
    size and modulus by assigning them on the fresh instance. *)
Definition configure (n k : Z) (s : state) : state := set_K k (set_N n s).

(** [self.channel.udt_send(p)] *)
Definition udt_send (p : Packet) : M state unit :=
  modify (fun s => set_channel (channel s ++ [p]) s).

(** [self.env.process(self.timer_behavior(seq_num))]: the new process is
    scheduled, its generator has not run yet. *)
Definition env_process (seq_num : Z) : M state nat :=
  fun s => (Return (length (env s)), set_env (env s ++ [(seq_num, Created)]) s).

(** [self.timers[seq_num].triggered], for the handle [pid]. *)
Definition triggered (pid : nat) (s : state) : bool :=
  match env s !! pid with
  | Some (_, st) => is_triggered st
  | None => false
  end.

(** [self.timers[seq_num].interrupt()], for the handle [pid]: SimPy
    schedules the delivery of [simpy.Interrupt]; it refuses a process that
    has terminated.  The caller is never the timer process itself, as
    [rdt_rcv] runs in the channel's process. *)
Definition interrupt (pid : nat) : M state unit :=
  fun s =>
    match env s !! pid with
    | Some (q, Created) => (Return tt, set_env (<[pid := (q, Interrupted false)]> (env s)) s)
    | Some (q, Waiting) => (Return tt, set_env (<[pid := (q, Interrupted true)]> (env s)) s)
    | Some (q, Interrupted b) => (Return tt, s)
    | Some (q, Triggered) => (Raise RuntimeError, s)
    | None => (Raise RuntimeError, s)
    end.

Definition start_timer (seq_num : Z) : M state unit :=
  let* s := get in
  match timers s !! seq_num with
  | None =>
      let* pid := env_process seq_num in
      modify (fun s => set_timers (<[seq_num := pid]> (timers s)) s)
  | Some _ => ret tt
  end.

Definition stop_timer (seq_num : Z) : M state unit :=
  let* s := get in
  match timers s !! seq_num with
  | Some pid =>
      if negb (triggered pid s) then
        interrupt pid >>
        let* s := get in
        let* t := liftE (py_del seq_num (timers s)) in
        modify (set_timers t)
      else ret tt
  | None => ret tt
  end.

Definition rdt_send (msg : string) : M state bool :=
  let* s := get in
  let* w := liftE (window (base s) (N s) (K s)) in
  if py_in (nextseqnum s) w then
    modify (fun s => set_sndpkt
      (<[nextseqnum s := new_Packet (nextseqnum s) msg (data_packet_length s)]> (sndpkt s)) s) >>
    (let* s := get in
     let* p := liftE (py_getitem (nextseqnum s) (sndpkt s)) in
     udt_send p) >>
    modify (fun s => set_total_packets_sent (total_packets_sent s + 1) s) >>
    (let* s := get in start_timer (nextseqnum s)) >>
    (let* s := get in
     let* n := liftE (py_mod (nextseqnum s + 1) (K s)) in
     modify (set_nextseqnum n)) >>
    ret true
  else ret false.

(** The loop condition of the window slide:
    [self.base in self.acknowledged and self.acknowledged[self.base]]. *)
Definition slide_cond (s : state) : bool :=
  match acknowledged s !! base s with
  | Some b => b
  | None => false
  end.

(** The [while] loop of [rdt_rcv].  Each iteration deletes one key of
    [acknowledged], so the number of keys at loop entry bounds the number
    of iterations; [rdt_rcv] passes that number as [fuel]. *)
Fixpoint slide (fuel : nat) : M state unit :=
  match fuel with
  | O => ret tt
  | S fuel' =>
      let* s := get in
      if slide_cond s then
        (let* a := liftE (py_del (base s) (acknowledged s)) in
         modify (set_acknowledged a)) >>
        (let* s := get in
         let* b := liftE (py_mod (base s + 1) (K s)) in
         modify (set_base b)) >>
        slide fuel'
      else ret tt
  end.

Definition rdt_rcv (packt : Packet) : M state unit :=
  if negb (corrupted packt) then
    let* s := get in
    if bool_decide (seq_num packt ∈ dom (sndpkt s)) then
      modify (fun s => set_acknowledged (<[seq_num packt := true]> (acknowledged s)) s) >>
      stop_timer (seq_num packt) >>
      let* s := get in
      slide (size (acknowledged s))
    else ret tt
  else ret tt.

Definition timeout_action (seq_num : Z) : M state unit :=
  let* s := get in
  if bool_decide (seq_num ∈ dom (sndpkt s)) then
    (let* p := liftE (py_getitem seq_num (sndpkt s)) in udt_send p) >>
    modify (fun s => set_num_retransmissions (num_retransmissions s + 1) s) >>
    modify (fun s => set_total_packets_sent (total_packets_sent s + 1) s) >>
    (let* s := get in
     let* t := liftE (py_del seq_num (timers s)) in
     modify (set_timers t)) >>
    start_timer seq_num
  else ret tt.

(** [print_status]: the window list is built for the [print] call, which
    is all the method does. *)
Definition print_status : M state unit :=
  let* s := get in
  let* w := liftE (window (base s) (N s) (K s)) in
  ret tt.

(** [timer_behavior] is a generator with one [yield].  Its three
    segments: up to the [yield]; after the [yield] when the timeout
    elapsed; the [except simpy.Interrupt] handler. *)
Definition timer_behavior_enter : M state unit :=
  modify (set_timer_is_running true).

Definition timer_behavior_elapsed (seq_num : Z) : M state unit :=
  modify (set_timer_is_running false) >>
  timeout_action seq_num.

Definition timer_behavior_interrupted : M state unit :=
  modify (set_timer_is_running false).

(** *** The sender inside the simulation

    What the collaborators do to a sender: the application submits data,
    the channel hands over an acknowledgment, and SimPy starts a timer
    process, lets its timeout elapse, or delivers a pending interrupt. *)
Inductive event : Type :=
| App_send (msg : string)
| Chan_ack (packt : Packet)
| Proc_start (pid : nat)
| Proc_timeout (pid : nat)
| Proc_interrupt (pid : nat).

Definition set_pstate (pid : nat) (st : pstate) (s : state) : state :=
  match env s !! pid with
  | Some (q, _) => set_env (<[pid := (q, st)]> (env s)) s
  | None => s
  end.

(** An exception escaping a method stops the simulation: the step is
    not taken. *)
Definition completes {A} (r : outcome A * state) : option state :=
  match r with
  | (Return _, s') => Some s'
  | (Raise _, _) => None
  end.

Definition fire (ev : event) (s : state) : option state :=
  match ev with
  | App_send msg => completes (rdt_send msg s)
  | Chan_ack packt => completes (rdt_rcv packt s)
  | Proc_start pid =>
      match env s !! pid with
      | Some (_, Created) =>
          completes (timer_behavior_enter (set_pstate pid Waiting s))
      | Some (_, Interrupted false) =>
          completes (timer_behavior_enter (set_pstate pid (Interrupted true) s))
      | _ => None
      end
  | Proc_timeout pid =>
      match env s !! pid with
      | Some (q, Waiting) =>
          option_map (set_pstate pid Triggered) (completes (timer_behavior_elapsed q s))
      | _ => None
      end
  | Proc_interrupt pid =>
      match env s !! pid with
      | Some (_, Interrupted true) =>
          option_map (set_pstate pid Triggered) (completes (timer_behavior_interrupted s))
      | _ => None
      end
  end.

(** Runs a schedule; [ok] restricts which events the collaborators may
    produce in which state. *)
Fixpoint run_under (ok : event -> state -> bool) (evs : list event) (s : state)
  : option state :=
  match evs with
  | [] => Some s
  | ev :: evs' =>
      if ok ev s then
        match fire ev s with
        | Some s' => run_under ok evs' s'
        | None => None
        end
      else None
  end.

Definition run : list event -> state -> option state :=
  run_under (fun _ _ => true).

(** The sequence numbers sent and not yet passed by [base], oldest
    first: [(nextseqnum - base) % K] of them, starting at [base]. *)
Definition in_flight (s : state) : list Z :=
  map (fun i => (base s + i) mod K s) (range 0 ((nextseqnum s - base s) mod K s)).

(** A channel that hands over an uncorrupted acknowledgment only while
    the packet it acknowledges is in flight: none arrives after [base] has
    passed its sequence number. *)
Definition timely (ev : event) (s : state) : bool :=
  match ev with
  | Chan_ack packt => corrupted packt || py_in (seq_num packt) (in_flight s)
  | _ => true
  end.

(** The acknowledgment the receiver sends for [seq], as it arrives when
    the channel does not corrupt it. *)
Definition ack_for (seq : Z) : Packet := new_Packet seq "ACK" 10.

(** The window invariant of a sender configured with window [n0] and
    modulus [k0]: [nextseqnum] is [d <= n0] steps ahead of [base], and
    every key of [acknowledged] is less than [d] steps ahead of [base]. *)
Definition window_inv (n0 k0 : Z) (s : state) : Prop :=
  N s = n0 /\ K s = k0 /\ 0 <= base s < k0 /\
  exists d, 0 <= d <= n0 /\
    nextseqnum s = (base s + d) mod k0 /\
    forall k, is_Some (acknowledged s !! k) ->
      exists j, 0 <= j < d /\ k = (base s + j) mod k0.

(** Scenario A of the spec ([N = 4], [K = 8]): four submissions, the
    acknowledgment of the first, a fifth submission. *)
Definition scenario_A : list event :=
  [App_send "a"; App_send "b"; App_send "c"; App_send "d";
   Chan_ack (ack_for 1); App_send "e"].

(** A schedule in which the channel duplicates the first acknowledgment
    and the duplicate arrives after [base] has moved on; the sender then
    goes once around the sequence space, every packet acknowledged in
    turn. *)
Definition stale_ack_schedule : list event :=
  [App_send "a"; Chan_ack (ack_for 1); Chan_ack (ack_for 1);
   App_send "b"; Chan_ack (ack_for 2);
   App_send "c"; Chan_ack (ack_for 3);
   App_send "d"; Chan_ack (ack_for 4);
   App_send "e"; Chan_ack (ack_for 5);
   App_send "f"; Chan_ack (ack_for 6);
   App_send "g"; Chan_ack (ack_for 7);
   App_send "h"; Chan_ack (ack_for 0)].

(** A schedule of the default configuration.  Packets 1 and 2 go out,
    2 is acknowledged and its timer process 1 interrupted; sixteen more
    submissions wrap around to sequence number 2 again, whose packet gets
    the timer process 16.  No acknowledgment of packet 1 arrives, and the
    timers created before process 16 elapse first, in the order of their
    creation, each retransmission starting a new timer process. *)
Definition wrap_schedule : list event :=
  [App_send "p1"; App_send "p2"; Proc_start 0; Proc_start 1;
   Chan_ack (ack_for 2); Proc_interrupt 1]
  ++ repeat (App_send "x") 16
  ++ map Proc_start (seq 2 15)
  ++ concat (zip_with (fun old new => [Proc_timeout old; Proc_start new])
               (0%nat :: seq 2 14) (seq 17 15)).

(** A timer process that can still fire. *)
Definition is_live (st : pstate) : bool :=
  match st with
  | Created | Waiting => true
  | _ => false
  end.

(** Timer entries and live timer processes correspond: every entry of
    [timers] is the handle of a live process for that sequence number,
    which is buffered; and every live process is the one [timers] holds
    for its sequence number. *)
Definition timer_table_inv
    (e : list (Z * pstate)) (t : gmap Z nat) (sp : gmap Z Packet) : Prop :=
  (forall q pid, t !! q = Some pid ->
     is_Some (sp !! q) /\ exists st, e !! pid = Some (q, st) /\ is_live st = true) /\
  (forall pid q st, e !! pid = Some (q, st) -> is_live st = true -> t !! q = Some pid).

Definition timer_inv (s : state) : Prop :=
  timer_table_inv (env s) (timers s) (sndpkt s).

(** What the sender's books look like under a modulus [k0]: every packet
    record sits under its own sequence number, a residue modulo [k0], and
    is not corrupted; only buffered sequence numbers are marked
    acknowledged, and only with [True]; every packet handed to the channel
    is the uncorrupted packet of a buffered sequence number;
    [total_packets_sent] is the number of packets handed to the channel,
    and [num_retransmissions] is between zero and that number. *)
Definition books_inv (k0 : Z) (s : state) : Prop :=
  K s = k0 /\
  (forall k p, sndpkt s !! k = Some p ->
     seq_num p = k /\ corrupted p = false /\ 0 <= k < k0) /\
  (forall k b, acknowledged s !! k = Some b ->
     b = true /\ is_Some (sndpkt s !! k)) /\
  Forall (fun p => corrupted p = false /\ 0 <= seq_num p < k0 /\
                   is_Some (sndpkt s !! seq_num p)) (channel s) /\
  total_packets_sent s = Z.of_nat (length (channel s)) /\
  0 <= num_retransmissions s <= total_packets_sent s.

End rdt_Sender.

(** ** The receiver *)

Module rdt_Receiver.

Record state : Type := mkState {
  channel : list Packet;
  receiving_app : list string;
  ack_packet_length : Z;
  K : Z;
  expectedseqnum : Z;
  receiving_window : Z;
  base : Z;
  sndpkt : Packet;
  total_packets_sent : Z;
  num_retransmissions : Z;
  received_packets : gmap Z Packet
}.

Definition set_channel v s :=
  mkState v (receiving_app s) (ack_packet_length s) (K s) (expectedseqnum s)
    (receiving_window s) (base s) (sndpkt s) (total_packets_sent s)
    (num_retransmissions s) (received_packets s).
Definition set_receiving_app v s :=
  mkState (channel s) v (ack_packet_length s) (K s) (expectedseqnum s)
    (receiving_window s) (base s) (sndpkt s) (total_packets_sent s)
    (num_retransmissions s) (received_packets s).
Definition set_K v s :=
  mkState (channel s) (receiving_app s) (ack_packet_length s) v (expectedseqnum s)
    (receiving_window s) (base s) (sndpkt s) (total_packets_sent s)
    (num_retransmissions s) (received_packets s).
Definition set_receiving_window v s :=
  mkState (channel s) (receiving_app s) (ack_packet_length s) (K s) (expectedseqnum s)
    v (base s) (sndpkt s) (total_packets_sent s)
    (num_retransmissions s) (received_packets s).
Definition set_base v s :=
  mkState (channel s) (receiving_app s) (ack_packet_length s) (K s) (expectedseqnum s)
    (receiving_window s) v (sndpkt s) (total_packets_sent s)
    (num_retransmissions s) (received_packets s).
Definition set_sndpkt v s :=
  mkState (channel s) (receiving_app s) (ack_packet_length s) (K s) (expectedseqnum s)
    (receiving_window s) (base s) v (total_packets_sent s)
    (num_retransmissions s) (received_packets s).
Definition set_total_packets_sent v s :=
  mkState (channel s) (receiving_app s) (ack_packet_length s) (K s) (expectedseqnum s)
    (receiving_window s) (base s) (sndpkt s) v
    (num_retransmissions s) (received_packets s).
Definition set_num_retransmissions v s :=
  mkState (channel s) (receiving_app s) (ack_packet_length s) (K s) (expectedseqnum s)
    (receiving_window s) (base s) (sndpkt s) (total_packets_sent s)
    v (received_packets s).
Definition set_received_packets v s :=
  mkState (channel s) (receiving_app s) (ack_packet_length s) (K s) (expectedseqnum s)
    (receiving_window s) (base s) (sndpkt s) (total_packets_sent s)
    (num_retransmissions s) v.

(** [__init__] *)
Definition init : state := {|
  channel := [];
  receiving_app := [];
  ack_packet_length := 10;
  K := 16;
  expectedseqnum := 1;
  receiving_window := 16;
  base := 1;
  sndpkt := new_Packet 0 "ACK" 10;
  total_packets_sent := 0;
  num_retransmissions := 0;
  received_packets := ∅
|}.

Definition configure (n k : Z) (s : state) : state :=
  set_K k (set_receiving_window n s).

(** [self.channel.udt_send(p)] *)
Definition udt_send (p : Packet) : M state unit :=
  modify (fun s => set_channel (channel s ++ [p]) s).

(** [self.receiving_app.deliver_data(x)] *)
Definition deliver_data (x : string) : M state unit :=
  modify (fun s => set_receiving_app (receiving_app s ++ [x]) s).

(** The [while] loop of [rdt_rcv].  Each iteration deletes one key of
    [received_packets]; [rdt_rcv] passes the number of keys at loop entry
    as [fuel]. *)
Fixpoint slide (fuel : nat) : M state unit :=
  match fuel with
  | O => ret tt
  | S fuel' =>
      let* s := get in
      if bool_decide (base s ∈ dom (received_packets s)) then
        (let* p := liftE (py_getitem (base s) (received_packets s)) in
         deliver_data (payload p)) >>
        (let* s := get in
         let* r := liftE (py_del (base s) (received_packets s)) in
         modify (set_received_packets r)) >>
        (let* s := get in
         let* b := liftE (py_mod (base s + 1) (K s)) in
         modify (set_base b)) >>
        slide fuel'
      else ret tt
  end.

Definition rdt_rcv (packt : Packet) : M state unit :=
  if negb (corrupted packt) then
    modify (fun s => set_sndpkt
      (new_Packet (seq_num packt) "ACK" (ack_packet_length s)) s) >>
    (let* s := get in udt_send (sndpkt s)) >>
    modify (fun s => set_total_packets_sent (total_packets_sent s + 1) s) >>
    let* s := get in
    let* w := liftE (window (base s) (receiving_window s) (K s)) in
    if py_in (seq_num packt) w then
      modify (fun s => set_received_packets
        (<[seq_num packt := packt]> (received_packets s)) s) >>
      let* s := get in
      slide (size (received_packets s))
    else
      modify (fun s => set_num_retransmissions (num_retransmissions s + 1) s)
  else ret tt.

(** The channel hands the packets of [pkts] to the receiver, one after
    the other; an exception escaping [rdt_rcv] stops the simulation. *)
Fixpoint receive (pkts : list Packet) (s : state) : option state :=
  match pkts with
  | [] => Some s
  | packt :: pkts' =>
      match rdt_rcv packt s with
      | (Return _, s') => receive pkts' s'
      | (Raise _, _) => None
      end
  end.

(** The packets of [pkts] that arrived uncorrupted, in arrival order. *)
Definition uncorrupted (pkts : list Packet) : list Packet :=
  List.filter (fun packt => negb (corrupted packt)) pkts.

(** What the receiver's books look like after the packets [seen] have
    arrived, for a window [n0] and a modulus [k0], when [delivered] are
    the packets whose payloads went to the application: every buffered
    packet is an uncorrupted arrival stored under its own sequence
    number, which lies 1 to [n0 - 1] steps ahead of [base], and nothing
    is buffered under [base] itself; the delivered
    packets are uncorrupted arrivals with the successive sequence numbers
    1, 2, ... modulo [k0], and [base] is the one after the last of them. *)
Definition books_inv (n0 k0 : Z) (seen delivered : list Packet) (s : state) : Prop :=
  K s = k0 /\ receiving_window s = n0 /\ 0 <= base s < k0 /\
  received_packets s !! base s = None /\
  (forall key p, received_packets s !! key = Some p ->
     seq_num p = key /\ corrupted p = false /\ p ∈ seen /\
     exists j, 1 <= j < n0 /\ key = (base s + j) mod k0) /\
  receiving_app s = map payload delivered /\
  map seq_num delivered = bases k0 1 (length delivered) /\
  base s = base_after k0 1 (length delivered) /\
  Forall (fun p => p ∈ seen /\ corrupted p = false) delivered.

End rdt_Receiver.

(** ** Both ends over a perfect channel

    One payload goes all the way: the application submits it, the channel
    carries the packet it was just handed to the receiver, and carries the
    acknowledgment the receiver just handed it back to the sender, before
    any timer elapses. *)
Module Lockstep.

Definition transfer_one (msg : string)
    (sr : rdt_Sender.state * rdt_Receiver.state)
  : option (rdt_Sender.state * rdt_Receiver.state) :=
  let (s, r) := sr in
  match rdt_Sender.rdt_send msg s with
  | (Return true, s1) =>
      match last (rdt_Sender.channel s1) with
      | Some packt =>
          match rdt_Receiver.rdt_rcv packt r with
          | (Return _, r1) =>
              match last (rdt_Receiver.channel r1) with
              | Some ack =>
                  match rdt_Sender.rdt_rcv ack s1 with
                  | (Return _, s2) => Some (s2, r1)
                  | (Raise _, _) => None
                  end
              | None => None
              end
          | (Raise _, _) => None
          end
      | None => None
      end
  | _ => None
  end.

Fixpoint transfer (msgs : list string)
    (sr : rdt_Sender.state * rdt_Receiver.state)
  : option (rdt_Sender.state * rdt_Receiver.state) :=
  match msgs with
  | [] => Some sr
  | msg :: msgs' =>
      match transfer_one msg sr with
      | Some sr' => transfer msgs' sr'
      | None => None
      end
  end.

(** Sender and receiver in step after the payloads [done]: both windows
    start at the same [base], nothing is in flight, buffered out of order
    or marked, no timer is pending, and the application has received
    exactly [done]. *)
Definition in_step (n k nr : Z) (done : list string)
    (sr : rdt_Sender.state * rdt_Receiver.state) : Prop :=
  let (s, r) := sr in
  rdt_Sender.N s = n /\ rdt_Sender.K s = k /\
  rdt_Receiver.receiving_window r = nr /\ rdt_Receiver.K r = k /\
  rdt_Sender.base s = (1 + Z.of_nat (length done)) mod k /\
  rdt_Sender.nextseqnum s = rdt_Sender.base s /\
  rdt_Receiver.base r = rdt_Sender.base s /\
  rdt_Sender.acknowledged s = ∅ /\
  rdt_Sender.timers s = ∅ /\
  rdt_Receiver.received_packets r = ∅ /\
  rdt_Receiver.receiving_app r = done /\
  rdt_Sender.num_retransmissions s = 0 /\
  rdt_Receiver.num_retransmissions r = 0 /\
  rdt_Sender.total_packets_sent s = Z.of_nat (length done) /\
  rdt_Receiver.total_packets_sent r = Z.of_nat (length done).

End Lockstep.

(** * Properties *)

(** ** Windows and Python arithmetic *)

Ltac unfold_monad :=
  unfold bind, get, put, modify, liftE, ret in *.

Lemma comprehension_total {A B} (f : A -> outcome B) (g : A -> B) (l : list A) :
  (forall x, f x = Return (g x)) -> comprehension f l = Return (map g l).
Proof.
  intros Hf. induction l as [|x l IH]; simpl; [reflexivity|].
  now rewrite Hf, IH.
Qed.

Lemma py_mod_Return (a b : Z) : b <> 0 -> py_mod a b = Return (a mod b).
Proof. intros Hb. unfold py_mod. now destruct (Z.eqb_spec b 0). Qed.

Lemma window_Return (b n k : Z) :
  k <> 0 -> window b n k = Return (map (fun i => (b + i) mod k) (range 0 n)).
Proof.
  intros Hk. unfold window. apply comprehension_total.
  intros i. now apply py_mod_Return.
Qed.

Lemma window_nonempty_nonzero (b n k : Z) (w : list Z) :
  window b n k = Return w -> w <> [] -> k <> 0.
Proof.
  unfold window, range. intros Hw Hne ->.
  destruct (Z.to_nat (n - 0)) as [|m]; simpl in Hw.
  - inversion Hw. now subst w.
  - discriminate Hw.
Qed.

Lemma In_range (lo hi i : Z) : In i (range lo hi) <-> lo <= i < hi.
Proof.
  unfold range. rewrite in_map_iff. split.
  - intros (j & <- & Hj). apply in_seq in Hj. lia.
  - intros Hi. exists (Z.to_nat (i - lo)). split; [lia|].
    apply in_seq. lia.
Qed.

Lemma py_in_true (x : Z) (l : list Z) : py_in x l = true <-> In x l.
Proof.
  unfold py_in. rewrite existsb_exists. split.
  - intros (y & Hy & Heq). apply Z.eqb_eq in Heq. now subst.
  - intros Hx. exists x. split; [assumption | apply Z.eqb_refl].
Qed.

Lemma py_in_window (x b n k : Z) :
  py_in x (map (fun i => (b + i) mod k) (range 0 n)) = true
  <-> exists i, 0 <= i < n /\ x = (b + i) mod k.
Proof.
  rewrite py_in_true, in_map_iff. split.
  - intros (i & <- & Hi). apply In_range in Hi. eauto.
  - intros (i & Hi & ->). exists i. split; [reflexivity | now apply In_range].
Qed.

Lemma Forall2_elem_of_l {A B} (P : A -> B -> Prop) (l : list A) (k : list B) (x : A) :
  Forall2 P l k -> x ∈ l -> exists y, P x y.
Proof.
  intros Hall Hx. apply list_elem_of_lookup in Hx as [i Hi].
  destruct (Forall2_lookup_l _ _ _ _ _ Hall Hi) as (y & _ & Hy). eauto.
Qed.

(** ** The sender's methods, one at a time *)

Module SenderTheory.
Import rdt_Sender.

(** The state [start_timer] leaves behind when it creates a timer. *)
Lemma start_timer_fresh (s : state) (seq : Z) :
  timers s !! seq = None ->
  start_timer seq s =
    (Return tt,
     set_timers (<[seq := length (env s)]> (timers s))
       (set_env (env s ++ [(seq, Created)]) s)).
Proof.
  intros Hnone. unfold start_timer, env_process. unfold_monad.
  now rewrite Hnone.
Qed.

Lemma start_timer_running (s : state) (seq : Z) :
  is_Some (timers s !! seq) -> start_timer seq s = (Return tt, s).
Proof.
  intros [pid Hpid]. unfold start_timer. unfold_monad. now rewrite Hpid.
Qed.

Lemma stop_timer_missing (s : state) (seq : Z) :
  timers s !! seq = None -> stop_timer seq s = (Return tt, s).
Proof.
  intros Hnone. unfold stop_timer. unfold_monad. now rewrite Hnone.
Qed.

(** C9.  Timer anomalies are harmless no-ops: [start_timer] for a
    sequence number that already has a timer entry, and [stop_timer] for
    one that has none, both return normally and leave the whole sender
    state (the timer table and the processes in particular) as it was. *)
Theorem timer_anomalies_are_noops (s : state) (seq : Z) :
  (is_Some (timers s !! seq) ->
     start_timer seq s = (Return tt, s)) /\
  (timers s !! seq = None ->
     stop_timer seq s = (Return tt, s)).
Proof.
  split; [apply start_timer_running | apply stop_timer_missing].
Qed.

Lemma timer_anomalies_are_noops_witness :
  start_timer 1 (snd (rdt_send "a" init))
    = (Return tt, snd (rdt_send "a" init)) /\
  stop_timer 1 init = (Return tt, init).
Proof.
  split.
  - apply (proj1 (timer_anomalies_are_noops (snd (rdt_send "a" init)) 1)).
    vm_compute. eauto.
  - apply (proj2 (timer_anomalies_are_noops init 1)). reflexivity.
Defined.

(** *** What each method can touch *)

Lemma stop_timer_frame (seq : Z) (s s' : state) (o : outcome unit) :
  stop_timer seq s = (o, s') ->
  exists e t, s' = set_timers t (set_env e s).
Proof.
  unfold stop_timer, interrupt, py_del, triggered. unfold_monad.
  destruct s as [e c dl tv n k b nx sp ak tot nr t fl]; simpl.
  destruct (t !! seq) as [pid|] eqn:Ht.
  - destruct (e !! pid) as [[q [| |started|]]|] eqn:He; simpl;
      rewrite ?He; simpl; rewrite ?Ht; simpl;
      intros [= <- <-]; eexists _, _; reflexivity.
  - intros [= <- <-]. eexists _, _; reflexivity.
Qed.

Lemma slide_frame (fuel : nat) (s s' : state) (o : outcome unit) :
  slide fuel s = (o, s') ->
  exists b a, s' = set_base b (set_acknowledged a s).
Proof.
  revert s s' o. induction fuel as [|fuel IH]; intros s s' o; simpl; unfold_monad.
  - intros [= <- <-]. exists (base s), (acknowledged s). now destruct s.
  - unfold slide_cond, py_del, py_mod.
    destruct s as [e c dl tv n k b nx sp ak tot nr t fl]; simpl.
    destruct (ak !! b) as [[|]|]; simpl;
      try (intros [= <- <-]; exists b, ak; reflexivity).
    destruct (k =? 0); simpl.
    + intros [= <- <-]. exists b, (delete b ak). reflexivity.
    + intros Hrun. apply IH in Hrun as (b' & a' & ->).
      exists b', a'. reflexivity.
Qed.

Lemma rdt_rcv_frame (packt : Packet) (s s' : state) (o : outcome unit) :
  rdt_rcv packt s = (o, s') ->
  exists b a e t, s' = set_base b (set_acknowledged a (set_timers t (set_env e s))).
Proof.
  assert (Hsame : exists b a e t,
             s = set_base b (set_acknowledged a (set_timers t (set_env e s)))).
  { exists (base s), (acknowledged s), (env s), (timers s). now destruct s. }
  unfold rdt_rcv. unfold_monad.
  destruct (negb (corrupted packt)); [|now intros [= <- <-]].
  destruct (bool_decide _); [|now intros [= <- <-]].
  match goal with
  | |- context [stop_timer ?q ?s1] => destruct (stop_timer q s1) as [o1 s1'] eqn:Hstop
  end.
  apply stop_timer_frame in Hstop as (e & t & ->).
  destruct o1 as [[]|ex].
  - intros Hrun. apply slide_frame in Hrun as (b & a & ->).
    exists b, a, e, t. now destruct s.
  - intros [= <- <-]. exists (base s), (<[seq_num packt := true]> (acknowledged s)), e, t.
    now destruct s.
Qed.

Lemma rdt_rcv_keeps_sndpkt (packt : Packet) (s : state) :
  sndpkt (snd (rdt_rcv packt s)) = sndpkt s.
Proof.
  destruct (rdt_rcv packt s) as [o s'] eqn:Hrun.
  apply rdt_rcv_frame in Hrun as (b & a & e & t & ->). reflexivity.
Qed.

(** An acknowledgment for a sequence number that is not a key of
    [sndpkt] is ignored. *)
Lemma rdt_rcv_unbuffered (packt : Packet) (s : state) :
  sndpkt s !! seq_num packt = None -> rdt_rcv packt s = (Return tt, s).
Proof.
  intros Hnone. unfold rdt_rcv. unfold_monad.
  destruct (negb (corrupted packt)); [|reflexivity].
  rewrite bool_decide_eq_false_2; [reflexivity|].
  now apply not_elem_of_dom.
Qed.

Lemma timeout_action_unbuffered (seq : Z) (s : state) :
  sndpkt s !! seq = None -> timeout_action seq s = (Return tt, s).
Proof.
  intros Hnone. unfold timeout_action. unfold_monad.
  rewrite bool_decide_eq_false_2; [reflexivity|].
  now apply not_elem_of_dom.
Qed.

Lemma timeout_action_buffered (seq : Z) (s : state) (p : Packet) (pid : nat) :
  sndpkt s !! seq = Some p ->
  timers s !! seq = Some pid ->
  timeout_action seq s =
    (Return tt,
     {| env := env s ++ [(seq, Created)];
        channel := channel s ++ [p];
        data_packet_length := data_packet_length s;
        timeout_value := timeout_value s;
        N := N s;
        K := K s;
        base := base s;
        nextseqnum := nextseqnum s;
        sndpkt := sndpkt s;
        acknowledged := acknowledged s;
        total_packets_sent := total_packets_sent s + 1;
        num_retransmissions := num_retransmissions s + 1;
        timers := <[seq := length (env s)]> (timers s);
        timer_is_running := timer_is_running s |}).
Proof.
  intros Hp Ht. unfold timeout_action. unfold_monad.
  rewrite bool_decide_eq_true_2 by (apply elem_of_dom; eauto).
  unfold py_getitem, py_del, udt_send, start_timer, env_process. unfold_monad.
  rewrite Hp. simpl. rewrite Ht. simpl.
  rewrite lookup_delete_eq. simpl. now rewrite insert_delete_eq.
Qed.

Lemma timeout_action_frame (seq : Z) (s s' : state) (o : outcome unit) :
  timeout_action seq s = (o, s') ->
  exists c tot nr t e,
    s' = set_channel c (set_total_packets_sent tot
           (set_num_retransmissions nr (set_timers t (set_env e s)))).
Proof.
  destruct (sndpkt s !! seq) as [p|] eqn:Hp.
  - destruct (timers s !! seq) as [pid|] eqn:Ht.
    + rewrite (timeout_action_buffered _ _ _ _ Hp Ht). intros [= <- <-].
      exists (channel s ++ [p]), (total_packets_sent s + 1),
        (num_retransmissions s + 1), (<[seq := length (env s)]> (timers s)),
        (env s ++ [(seq, Created)]).
      now destruct s.
    + unfold timeout_action. unfold_monad.
      rewrite bool_decide_eq_true_2 by (apply elem_of_dom; eauto).
      unfold py_getitem, py_del, udt_send. unfold_monad.
      rewrite Hp. simpl. rewrite Ht. simpl. intros [= <- <-].
      exists (channel s ++ [p]), (total_packets_sent s + 1),
        (num_retransmissions s + 1), (timers s), (env s).
      now destruct s.
  - rewrite (timeout_action_unbuffered _ _ Hp). intros [= <- <-].
    exists (channel s), (total_packets_sent s), (num_retransmissions s),
      (timers s), (env s).
    now destruct s.
Qed.

Lemma set_pstate_frame (pid : nat) (st : pstate) (s : state) :
  exists e, set_pstate pid st s = set_env e s.
Proof.
  unfold set_pstate. destruct (env s !! pid) as [[q _]|].
  - eauto.
  - exists (env s). now destruct s.
Qed.

(** *** [rdt_send], case by case *)

Lemma rdt_send_accepted (s : state) (msg : string) :
  K s <> 0 ->
  py_in (nextseqnum s) (map (fun i => (base s + i) mod K s) (range 0 (N s))) = true ->
  rdt_send msg s =
    (Return true,
     {| env := match timers s !! nextseqnum s with
               | None => env s ++ [(nextseqnum s, Created)]
               | Some _ => env s
               end;
        channel := channel s ++ [new_Packet (nextseqnum s) msg (data_packet_length s)];
        data_packet_length := data_packet_length s;
        timeout_value := timeout_value s;
        N := N s;
        K := K s;
        base := base s;
        nextseqnum := (nextseqnum s + 1) mod K s;
        sndpkt := <[nextseqnum s := new_Packet (nextseqnum s) msg (data_packet_length s)]>
                    (sndpkt s);
        acknowledged := acknowledged s;
        total_packets_sent := total_packets_sent s + 1;
        num_retransmissions := num_retransmissions s;
        timers := match timers s !! nextseqnum s with
                  | None => <[nextseqnum s := length (env s)]> (timers s)
                  | Some _ => timers s
                  end;
        timer_is_running := timer_is_running s |}).
Proof.
  intros HK Hin. unfold rdt_send. unfold_monad.
  rewrite (window_Return _ _ _ HK), Hin.
  unfold udt_send, py_getitem, start_timer, env_process. unfold_monad. simpl.
  rewrite lookup_insert_eq. simpl.
  destruct (timers s !! nextseqnum s); simpl; now rewrite (py_mod_Return _ _ HK).
Qed.

Lemma rdt_send_rejected (s : state) (msg : string) :
  K s <> 0 ->
  py_in (nextseqnum s) (map (fun i => (base s + i) mod K s) (range 0 (N s))) = false ->
  rdt_send msg s = (Return false, s).
Proof.
  intros HK Hin. unfold rdt_send. unfold_monad.
  now rewrite (window_Return _ _ _ HK), Hin.
Qed.

(** With a zero modulus nothing is ever sent: the window expression
    raises, or the window is empty. *)
Lemma rdt_send_zero_modulus (s : state) (msg : string) :
  K s = 0 ->
  snd (rdt_send msg s) = s /\ fst (rdt_send msg s) <> Return true.
Proof.
  intros HK. unfold rdt_send, window, range. unfold_monad. rewrite HK.
  destruct (Z.to_nat (N s - 0)); simpl; split; congruence.
Qed.

(** *** Events *)

(** Only the application moves [nextseqnum], and nothing reconfigures a
    running sender or empties its packet buffer. *)
Lemma fire_ack_frame (packt : Packet) (s s' : state) :
  fire (Chan_ack packt) s = Some s' ->
  N s' = N s /\ K s' = K s /\ nextseqnum s' = nextseqnum s /\ sndpkt s' = sndpkt s.
Proof.
  simpl. destruct (rdt_rcv packt s) as [[[]|ex] s1] eqn:Hrun; simpl; [|discriminate].
  intros [= <-]. apply rdt_rcv_frame in Hrun as (b & a & e & t & ->).
  repeat split.
Qed.

Lemma fire_proc_frame (ev : event) (s s' : state) :
  fire ev s = Some s' ->
  match ev with
  | App_send _ | Chan_ack _ => True
  | _ =>
      N s' = N s /\ K s' = K s /\ nextseqnum s' = nextseqnum s /\
      sndpkt s' = sndpkt s /\ base s' = base s /\ acknowledged s' = acknowledged s
  end.
Proof.
  destruct ev as [msg|packt|pid|pid|pid]; simpl; try tauto.
  - destruct (env s !! pid) as [[q [| |[|]|]]|]; try discriminate;
      unfold timer_behavior_enter; unfold_monad; simpl; intros [= <-];
      match goal with
      | |- context [set_pstate ?i ?st ?x] =>
          destruct (set_pstate_frame i st x) as [e ->]
      end; repeat split.
  - destruct (env s !! pid) as [[q [| |[|]|]]|]; try discriminate.
    unfold timer_behavior_elapsed. unfold_monad.
    destruct (timeout_action q _) as [[[]|ex] s1] eqn:Hrun; simpl; [|discriminate].
    intros [= <-].
    apply timeout_action_frame in Hrun as (c & tot & nr & t & e & ->).
    match goal with
    | |- context [set_pstate ?i ?st ?x] =>
        destruct (set_pstate_frame i st x) as [e' ->]
    end; repeat split.
  - destruct (env s !! pid) as [[q [| |[|]|]]|]; try discriminate.
    unfold timer_behavior_interrupted. unfold_monad. simpl. intros [= <-].
    match goal with
    | |- context [set_pstate ?i ?st ?x] =>
        destruct (set_pstate_frame i st x) as [e' ->]
    end; repeat split.
Qed.

Lemma fire_send_cases (msg : string) (s s' : state) :
  fire (App_send msg) s = Some s' ->
  s' = s \/
  (K s <> 0 /\
   py_in (nextseqnum s) (map (fun i => (base s + i) mod K s) (range 0 (N s))) = true /\
   rdt_send msg s = (Return true, s')).
Proof.
  simpl. destruct (Z.eq_dec (K s) 0) as [HK|HK].
  - destruct (rdt_send_zero_modulus s msg HK) as [Hsame _].
    destruct (rdt_send msg s) as [[r|ex] s1]; simpl in *; [|discriminate].
    intros [= <-]. now left.
  - destruct (py_in (nextseqnum s) _) eqn:Hin.
    + rewrite (rdt_send_accepted s msg HK Hin). simpl. intros [= <-].
      right. repeat split; try assumption.
    + rewrite (rdt_send_rejected s msg HK Hin). simpl. intros [= <-]. now left.
Qed.

Lemma fire_config (ev : event) (s s' : state) :
  fire ev s = Some s' -> N s' = N s /\ K s' = K s.
Proof.
  intros Hfire. destruct ev as [msg|packt|pid|pid|pid].
  - apply fire_send_cases in Hfire as [->|(HK & Hin & Hrun)]; [tauto|].
    rewrite (rdt_send_accepted s msg HK Hin) in Hrun.
    injection Hrun as <-. simpl. tauto.
  - apply fire_ack_frame in Hfire. tauto.
  - apply fire_proc_frame in Hfire. tauto.
  - apply fire_proc_frame in Hfire. tauto.
  - apply fire_proc_frame in Hfire. tauto.
Qed.

Lemma fire_nextseqnum (ev : event) (s s' : state) :
  fire ev s = Some s' ->
  nextseqnum s' = nextseqnum s \/
  (exists msg, ev = App_send msg /\ K s <> 0 /\
     (exists i, 0 <= i < N s /\ nextseqnum s = (base s + i) mod K s) /\
     nextseqnum s' = (nextseqnum s + 1) mod K s).
Proof.
  intros Hfire. destruct ev as [msg|packt|pid|pid|pid].
  - apply fire_send_cases in Hfire as [->|(HK & Hin & Hrun)]; [now left|].
    right. exists msg. repeat split; try assumption.
    + now apply py_in_window.
    + rewrite (rdt_send_accepted s msg HK Hin) in Hrun.
      injection Hrun as <-. reflexivity.
  - apply fire_ack_frame in Hfire. tauto.
  - apply fire_proc_frame in Hfire. tauto.
  - apply fire_proc_frame in Hfire. tauto.
  - apply fire_proc_frame in Hfire. tauto.
Qed.

Lemma run_under_invariant (ok : event -> state -> bool) (P : state -> Prop) :
  (forall ev s s', ok ev s = true -> P s -> fire ev s = Some s' -> P s') ->
  forall evs s s', P s -> run_under ok evs s = Some s' -> P s'.
Proof.
  intros Hstep evs. induction evs as [|ev evs IH]; intros s s' HP; simpl.
  - now intros [= <-].
  - destruct (ok ev s) eqn:Hok; [|discriminate].
    destruct (fire ev s) as [s1|] eqn:Hfire; [|discriminate].
    apply IH. exact (Hstep ev s s1 Hok HP Hfire).
Qed.

(** C1.  [rdt_send] on a sender whose modulus is not zero returns [True]
    exactly when [nextseqnum] is [(base + i) % K] for some [i] in
    [0..N-1].  When it does, the new state has the fresh packet buffered
    at [nextseqnum] and appended to the channel, [total_packets_sent] one
    higher, a timer entry for [nextseqnum] (a new process when there was
    none), [nextseqnum] advanced modulo [K], and every other attribute
    unchanged.  Otherwise it returns [False] and the state is the one it
    was called in. *)
Theorem rdt_send_spec (s : state) (msg : string) :
  K s <> 0 ->
  let seq := nextseqnum s in
  let pkt := new_Packet seq msg (data_packet_length s) in
  let in_window := exists i, 0 <= i < N s /\ seq = (base s + i) mod K s in
  (fst (rdt_send msg s) = Return true <-> in_window) /\
  (in_window ->
     rdt_send msg s =
       (Return true,
        {| env := match timers s !! seq with
                  | None => env s ++ [(seq, Created)]
                  | Some _ => env s
                  end;
           channel := channel s ++ [pkt];
           data_packet_length := data_packet_length s;
           timeout_value := timeout_value s;
           N := N s;
           K := K s;
           base := base s;
           nextseqnum := (seq + 1) mod K s;
           sndpkt := <[seq := pkt]> (sndpkt s);
           acknowledged := acknowledged s;
           total_packets_sent := total_packets_sent s + 1;
           num_retransmissions := num_retransmissions s;
           timers := match timers s !! seq with
                     | None => <[seq := length (env s)]> (timers s)
                     | Some _ => timers s
                     end;
           timer_is_running := timer_is_running s |})) /\
  (~ in_window -> rdt_send msg s = (Return false, s)).
Proof.
  intros HK seq pkt in_window.
  assert (Hiff : py_in seq (map (fun i => (base s + i) mod K s) (range 0 (N s))) = true
                 <-> in_window) by apply py_in_window.
  destruct (py_in seq _) eqn:Hin.
  - assert (Hw : in_window) by now apply Hiff.
    rewrite (rdt_send_accepted s msg HK Hin). simpl.
    split; [tauto | split; [reflexivity | tauto]].
  - assert (Hw : ~ in_window).
    { intros Hw. apply Hiff in Hw. congruence. }
    rewrite (rdt_send_rejected s msg HK Hin). simpl.
    split; [|split]; try tauto.
    split; [discriminate | tauto].
Qed.

(** The first submission on a fresh sender with [N = 4], [K = 8]. *)
Lemma rdt_send_spec_witness :
  fst (rdt_send "a" (configure 4 8 init)) = Return true <->
  exists i, 0 <= i < 4 /\ 1 = (1 + i) mod 8.
Proof.
  apply (rdt_send_spec (configure 4 8 init) "a"). simpl. lia.
Defined.

(** *** Acknowledgments *)

Lemma rdt_rcv_buffered (packt : Packet) (s : state) :
  corrupted packt = false ->
  is_Some (sndpkt s !! seq_num packt) ->
  rdt_rcv packt s =
    match stop_timer (seq_num packt)
            (set_acknowledged (<[seq_num packt := true]> (acknowledged s)) s) with
    | (Return _, s2) => slide (size (acknowledged s2)) s2
    | (Raise ex, s2) => (Raise ex, s2)
    end.
Proof.
  intros Hok Hbuf. unfold rdt_rcv. unfold_monad. rewrite Hok. simpl.
  rewrite bool_decide_eq_true_2 by now apply elem_of_dom.
  reflexivity.
Qed.

(** [stop_timer] on a timer whose process has not terminated. *)
Lemma stop_timer_running (seq : Z) (s : state) (pid : nat) (q : Z) (st : pstate) :
  timers s !! seq = Some pid ->
  env s !! pid = Some (q, st) ->
  is_triggered st = false ->
  exists started,
    stop_timer seq s =
      (Return tt,
       set_timers (delete seq (timers s))
         (set_env (<[pid := (q, Interrupted started)]> (env s)) s)).
Proof.
  intros Ht He Hst. unfold stop_timer, interrupt, py_del, triggered. unfold_monad.
  rewrite Ht, He, Hst. simpl. rewrite He.
  destruct st as [| |started|]; try discriminate; simpl; rewrite Ht.
  - now exists false.
  - now exists true.
  - exists started. rewrite list_insert_id by assumption. now destruct s.
Qed.

(** No event removes a packet record: [sndpkt] only grows. *)
Lemma fire_keeps_sndpkt (ev : event) (s s' : state) (k : Z) :
  fire ev s = Some s' -> is_Some (sndpkt s !! k) -> is_Some (sndpkt s' !! k).
Proof.
  intros Hfire Hk. destruct ev as [msg|packt|pid|pid|pid].
  - apply fire_send_cases in Hfire as [->|(HK & Hin & Hrun)]; [assumption|].
    rewrite (rdt_send_accepted s msg HK Hin) in Hrun.
    injection Hrun as <-. simpl. apply lookup_insert_is_Some'. now right.
  - apply fire_ack_frame in Hfire as (_ & _ & _ & ->). assumption.
  - apply fire_proc_frame in Hfire as (_ & _ & _ & -> & _). assumption.
  - apply fire_proc_frame in Hfire as (_ & _ & _ & -> & _). assumption.
  - apply fire_proc_frame in Hfire as (_ & _ & _ & -> & _). assumption.
Qed.

(** The window slide, run with at least as much fuel as [acknowledged]
    has keys, stops because the loop condition is false, never because the
    fuel is used up.  It visits [n] successive bases, all of them marked
    acknowledged and pairwise different, and deletes their entries from
    [acknowledged]; it touches nothing else, [sndpkt] in particular. *)
Lemma sender_slide_spec (fuel : nat) (s : state) :
  K s <> 0 ->
  (size (acknowledged s) <= fuel)%nat ->
  exists n : nat,
    Forall (fun k => acknowledged s !! k = Some true) (bases (K s) (base s) n) /\
    NoDup (bases (K s) (base s) n) /\
    delete_all (bases (K s) (base s) n) (acknowledged s)
      !! base_after (K s) (base s) n <> Some true /\
    slide fuel s =
      (Return tt,
       set_base (base_after (K s) (base s) n)
         (set_acknowledged
            (delete_all (bases (K s) (base s) n) (acknowledged s)) s)).
Proof.
  revert s. induction fuel as [|fuel IH]; intros s HK Hsize.
  - exists 0%nat. simpl.
    assert (Hempty : acknowledged s = ∅) by (apply map_size_empty_iff; lia).
    repeat split; try constructor.
    + rewrite Hempty, lookup_empty. discriminate.
    + unfold_monad. now destruct s.
  - simpl. unfold_monad. unfold slide_cond, py_del.
    destruct (acknowledged s !! base s) as [[|]|] eqn:Hack; simpl.
    + rewrite (py_mod_Return _ _ HK). simpl.
      match goal with
      | |- context [slide fuel ?s1] => set (s1' := s1)
      end.
      destruct (IH s1' HK) as (n & Hall & Hnd & Hexit & Hrun).
      { subst s1'. simpl. rewrite map_size_delete, Hack. simpl. lia. }
      subst s1'. simpl in *.
      exists (S n). simpl. repeat split.
      * constructor; [assumption|].
        eapply Forall_impl; [exact Hall|].
        intros k Hk. simpl in Hk. apply lookup_delete_Some in Hk. tauto.
      * constructor; [|assumption].
        intros Hin. rewrite Forall_forall in Hall.
        specialize (Hall _ Hin). apply lookup_delete_Some in Hall. tauto.
      * exact Hexit.
      * rewrite Hrun. reflexivity.
    + exists 0%nat. simpl. repeat split; try constructor.
      * rewrite Hack. discriminate.
      * now destruct s.
    + exists 0%nat. simpl. repeat split; try constructor.
      * rewrite Hack. discriminate.
      * now destruct s.
Qed.

(** C5.  The code at the failing input: a fresh sender submits one
    payload and receives its acknowledgment.  The slide moves [base] from
    1 to 2 and deletes [acknowledged[1]], but the packet record
    [sndpkt[1]] is still there; a duplicate of the acknowledgment then
    puts an entry for 1 back into [acknowledged], behind [base]. *)
Theorem slide_keeps_packet_record :
  let s1 := snd (rdt_send "a" init) in
  let s2 := snd (rdt_rcv (ack_for 1) s1) in
  let s3 := snd (rdt_rcv (ack_for 1) s2) in
  (base s1, base s2, base s3) = (1, 2, 2) /\
  acknowledged s2 !! 1 = None /\
  sndpkt s2 !! 1 = Some (new_Packet 1 "a" 10) /\
  sndpkt s3 !! 1 = Some (new_Packet 1 "a" 10) /\
  acknowledged s3 !! 1 = Some true.
Proof. vm_compute. repeat split. Qed.

(** C3.  The code at the failing input: in the state reached by one
    submission and its acknowledgment, [base] is 2, so sequence number 1
    is behind the window.  A second, uncorrupted acknowledgment for 1 is
    not ignored: it takes the branch for buffered packets and changes
    [acknowledged]. *)
Theorem stale_ack_is_recorded :
  let s := snd (rdt_rcv (ack_for 1) (snd (rdt_send "a" init))) in
  let s' := snd (rdt_rcv (ack_for 1) s) in
  corrupted (ack_for 1) = false /\
  base s = 2 /\ nextseqnum s = 2 /\
  acknowledged s = ∅ /\
  acknowledged s' = {[ 1 := true ]} /\
  s' <> s.
Proof.
  vm_compute. repeat split. intros Heq. discriminate Heq.
Qed.

(** *** Timeouts *)

(** C7, as the code has it.  [timeout_action] retransmits exactly when
    [seq] is a key of [sndpkt]; [acknowledged] is not consulted.  When it
    fires (its timer entry being there, as it is when the timer process
    calls it), it puts the stored record [sndpkt[seq]] itself on the
    channel and nothing else, adds one to [num_retransmissions] and to
    [total_packets_sent], and replaces the timer entry of [seq] by a
    newly created process.  What keeps an acknowledged packet from being
    retransmitted is [rdt_rcv]: on an uncorrupted acknowledgment of a
    buffered [seq] whose timer process has not terminated, that process
    is interrupted and the timer entry of [seq] is gone. *)
Theorem timeout_action_spec (s : state) (seq : Z) :
  (sndpkt s !! seq = None -> timeout_action seq s = (Return tt, s)) /\
  (forall (p : Packet) (pid : nat),
     sndpkt s !! seq = Some p ->
     timers s !! seq = Some pid ->
     timeout_action seq s =
       (Return tt,
        {| env := env s ++ [(seq, Created)];
           channel := channel s ++ [p];
           data_packet_length := data_packet_length s;
           timeout_value := timeout_value s;
           N := N s;
           K := K s;
           base := base s;
           nextseqnum := nextseqnum s;
           sndpkt := sndpkt s;
           acknowledged := acknowledged s;
           total_packets_sent := total_packets_sent s + 1;
           num_retransmissions := num_retransmissions s + 1;
           timers := <[seq := length (env s)]> (timers s);
           timer_is_running := timer_is_running s |})) /\
  (forall (packt : Packet) (pid : nat) (q : Z) (st : pstate),
     corrupted packt = false ->
     seq_num packt = seq ->
     is_Some (sndpkt s !! seq) ->
     timers s !! seq = Some pid ->
     env s !! pid = Some (q, st) ->
     is_triggered st = false ->
     let s' := snd (rdt_rcv packt s) in
     timers s' !! seq = None /\
     (exists started, env s' !! pid = Some (q, Interrupted started)) /\
     fire (Proc_timeout pid) s' = None).
Proof.
  split; [apply timeout_action_unbuffered|].
  split; [apply timeout_action_buffered|].
  intros packt pid q st Hok <- Hbuf Ht He Hst s'.
  assert (Hpid : (pid < length (env s))%nat) by (eapply lookup_lt_Some; eauto).
  assert (Hs' : exists started b a,
             s' = set_base b (set_acknowledged a
                    (set_timers (delete (seq_num packt) (timers s))
                       (set_env (<[pid := (q, Interrupted started)]> (env s)) s)))).
  { subst s'. rewrite (rdt_rcv_buffered _ _ Hok Hbuf).
    destruct (stop_timer_running (seq_num packt)
                (set_acknowledged (<[seq_num packt := true]> (acknowledged s)) s)
                pid q st) as [started Hstop]; try (destruct s; assumption).
    rewrite Hstop.
    destruct (slide _ _) as [o s2] eqn:Hslide.
    apply slide_frame in Hslide as (b & a & ->).
    exists started, b. eexists. destruct s; reflexivity. }
  destruct Hs' as (started & b & a & ->). simpl.
  split; [apply lookup_delete_eq|].
  rewrite list_lookup_insert_eq by assumption.
  split; [now exists started | reflexivity].
Qed.

(** Packet 1 of a fresh sender times out once. *)
Lemma timeout_action_spec_witness :
  timeout_action 1 (snd (rdt_send "a" init)) =
    (Return tt,
     {| env := [(1, Created); (1, Created)];
        channel := [new_Packet 1 "a" 10; new_Packet 1 "a" 10];
        data_packet_length := 10;
        timeout_value := 10;
        N := 16;
        K := 16;
        base := 1;
        nextseqnum := 2;
        sndpkt := {[ 1 := new_Packet 1 "a" 10 ]};
        acknowledged := ∅;
        total_packets_sent := 2;
        num_retransmissions := 1;
        timers := {[ 1 := 1%nat ]};
        timer_is_running := false |}).
Proof.
  pose proof (proj1 (proj2 (timeout_action_spec (snd (rdt_send "a" init)) 1))
                (new_Packet 1 "a" 10) 0%nat) as Hfires.
  rewrite Hfires; reflexivity.
Defined.

(** Against the spec's wording: after [wrap_schedule] on a fresh sender
    [acknowledged[2]] is [True], the timer process 16 of sequence number
    2 is waiting and is the next to elapse, and when it does the packet
    is retransmitted. *)
Lemma timeout_fires_for_acknowledged :
  exists s s',
    run wrap_schedule init = Some s /\
    acknowledged s !! 2 = Some true /\
    timers s !! 2 = Some 16%nat /\
    fire (Proc_timeout 16) s = Some s' /\
    channel s' = channel s ++ [new_Packet 2 "x" 10] /\
    num_retransmissions s' = num_retransmissions s + 1.
Proof.
  eexists. eexists. split; [vm_compute; reflexivity|].
  split; [reflexivity|]. split; [reflexivity|].
  split; [vm_compute; reflexivity|].
  split; reflexivity.
Qed.

(** *** Timer entries and timer processes *)

Lemma timer_table_relabel e t sp (pid : nat) (q : Z) (st0 st : pstate) :
  timer_table_inv e t sp ->
  e !! pid = Some (q, st0) ->
  is_live st = is_live st0 ->
  timer_table_inv (<[pid := (q, st)]> e) t sp.
Proof.
  intros [H1 H2] He Hlive.
  assert (Hpid : (pid < length e)%nat) by (eapply lookup_lt_Some; eauto).
  split.
  - intros q' pid' Ht. destruct (H1 _ _ Ht) as (Hsp & st' & He' & Hst').
    split; [assumption|].
    destruct (decide (pid = pid')) as [<-|Hne].
    + rewrite He in He'. injection He' as <- <-.
      exists st. rewrite list_lookup_insert_eq by assumption. split; congruence.
    + exists st'. now rewrite list_lookup_insert_ne.
  - intros pid' q' st' He' Hst'.
    destruct (decide (pid = pid')) as [<-|Hne].
    + rewrite list_lookup_insert_eq in He' by assumption. injection He' as <- <-.
      apply (H2 pid q st0); congruence.
    + rewrite list_lookup_insert_ne in He' by assumption. eauto.
Qed.

Lemma timer_table_kill e t sp (pid : nat) (q : Z) (st0 st : pstate) :
  timer_table_inv e t sp ->
  e !! pid = Some (q, st0) ->
  t !! q = Some pid ->
  is_live st = false ->
  timer_table_inv (<[pid := (q, st)]> e) (delete q t) sp.
Proof.
  intros [H1 H2] He Ht Hdead.
  assert (Hpid : (pid < length e)%nat) by (eapply lookup_lt_Some; eauto).
  split.
  - intros q' pid' Ht'. apply lookup_delete_Some in Ht' as [Hq Ht'].
    destruct (H1 _ _ Ht') as (Hsp & st' & He' & Hst').
    split; [assumption|]. exists st'. split; [|assumption].
    rewrite list_lookup_insert_ne; [assumption|].
    intros <-. rewrite He in He'. congruence.
  - intros pid' q' st' He' Hst'.
    destruct (decide (pid = pid')) as [<-|Hne].
    + rewrite list_lookup_insert_eq in He' by assumption. congruence.
    + rewrite list_lookup_insert_ne in He' by assumption.
      pose proof (H2 _ _ _ He' Hst') as Ht'.
      rewrite lookup_delete_ne; [assumption|].
      intros <-. congruence.
Qed.

Lemma timer_table_spawn e t sp (q : Z) :
  timer_table_inv e t sp ->
  t !! q = None ->
  is_Some (sp !! q) ->
  timer_table_inv (e ++ [(q, Created)]) (<[q := length e]> t) sp.
Proof.
  intros [H1 H2] Ht Hsp. split.
  - intros q' pid' Ht'. apply lookup_insert_Some in Ht' as [[<- <-]|[Hq Ht']].
    + split; [assumption|]. exists Created.
      rewrite lookup_app_r by lia. rewrite Nat.sub_diag. now split.
    + destruct (H1 _ _ Ht') as (Hsp' & st' & He' & Hst').
      split; [assumption|]. exists st'. split; [|assumption].
      now apply lookup_app_l_Some.
  - intros pid' q' st' He' Hst'.
    apply lookup_app_Some in He' as [He'|[Hlen He']].
    + pose proof (H2 _ _ _ He' Hst') as Ht'.
      rewrite lookup_insert_ne; [assumption|]. intros <-. congruence.
    + destruct (pid' - length e)%nat as [|m] eqn:Hm; simpl in He'; [|discriminate].
      injection He' as <- <-.
      replace pid' with (length e) by lia. apply lookup_insert_eq.
Qed.

Lemma timer_table_buffer e t sp (k : Z) (p : Packet) :
  timer_table_inv e t sp -> timer_table_inv e t (<[k := p]> sp).
Proof.
  intros [H1 H2]. split; [|assumption].
  intros q pid Ht. destruct (H1 _ _ Ht) as [Hsp Hrest]. split; [|assumption].
  apply lookup_insert_is_Some'. now right.
Qed.

Lemma set_pstate_eq (pid : nat) (q : Z) (st0 st : pstate) (s : state) :
  env s !! pid = Some (q, st0) ->
  set_pstate pid st s = set_env (<[pid := (q, st)]> (env s)) s.
Proof. intros He. unfold set_pstate. now rewrite He. Qed.

Lemma fire_timer_inv (ev : event) (s s' : state) :
  timer_inv s -> fire ev s = Some s' -> timer_inv s'.
Proof.
  unfold timer_inv. intros Hinv Hfire.
  destruct ev as [msg|packt|pid|pid|pid].
  - apply fire_send_cases in Hfire as [->|(HK0 & Hin & Hrun)]; [assumption|].
    rewrite (rdt_send_accepted s msg HK0 Hin) in Hrun. injection Hrun as <-.
    simpl. destruct (timers s !! nextseqnum s) eqn:Ht.
    + now apply timer_table_buffer.
    + apply timer_table_spawn; [now apply timer_table_buffer | assumption |].
      rewrite lookup_insert_eq. eauto.
  - simpl in Hfire.
    destruct (corrupted packt) eqn:Hbad.
    { unfold rdt_rcv in Hfire. rewrite Hbad in Hfire. simpl in Hfire.
      now injection Hfire as <-. }
    destruct (sndpkt s !! seq_num packt) as [p|] eqn:Hbuf.
    2:{ rewrite (rdt_rcv_unbuffered _ _ Hbuf) in Hfire. simpl in Hfire.
        now injection Hfire as <-. }
    rewrite (rdt_rcv_buffered _ _ Hbad) in Hfire by eauto.
    destruct (timers s !! seq_num packt) as [pid|] eqn:Ht.
    + destruct (proj1 Hinv _ _ Ht) as (_ & st & He & Hst).
      destruct (stop_timer_running (seq_num packt)
                  (set_acknowledged (<[seq_num packt := true]> (acknowledged s)) s)
                  pid (seq_num packt) st) as [started Hstop];
        try assumption.
      { destruct st; try discriminate; reflexivity. }
      rewrite Hstop in Hfire.
      destruct (slide _ _) as [[[]|ex] s3] eqn:Hslide; [|discriminate].
      simpl in Hfire. injection Hfire as <-.
      apply slide_frame in Hslide as (b & a & ->). simpl.
      now apply (timer_table_kill _ _ _ pid (seq_num packt) st).
    + rewrite stop_timer_missing in Hfire by assumption.
      destruct (slide _ _) as [[[]|ex] s3] eqn:Hslide; [|discriminate].
      simpl in Hfire. injection Hfire as <-.
      apply slide_frame in Hslide as (b & a & ->). assumption.
  - simpl in Hfire.
    destruct (env s !! pid) as [[q [| |[|]|]]|] eqn:He; try discriminate;
      rewrite (set_pstate_eq _ _ _ _ _ He) in Hfire;
      unfold timer_behavior_enter in Hfire; unfold_monad; simpl in Hfire;
      injection Hfire as <-; simpl;
      eapply timer_table_relabel; eauto.
  - simpl in Hfire.
    destruct (env s !! pid) as [[q [| |[|]|]]|] eqn:He; try discriminate.
    pose proof (proj2 Hinv _ _ _ He eq_refl) as Ht.
    destruct (proj1 Hinv _ _ Ht) as ([p Hp] & _).
    assert (Hpid : (pid < length (env s))%nat) by (eapply lookup_lt_Some; eauto).
    unfold timer_behavior_elapsed in Hfire. unfold_monad. simpl in Hfire.
    rewrite (timeout_action_buffered q _ p pid) in Hfire by assumption.
    simpl in Hfire. injection Hfire as <-.
    erewrite set_pstate_eq by (simpl; apply lookup_app_l_Some; exact He).
    simpl. rewrite insert_app_l by assumption.
    rewrite <- (insert_delete_eq (timers s)).
    rewrite <- (length_insert (env s) pid (q, Triggered)).
    apply timer_table_spawn.
    + now apply (timer_table_kill _ _ _ pid q Waiting).
    + apply lookup_delete_eq.
    + eauto.
  - simpl in Hfire.
    destruct (env s !! pid) as [[q [| |[|]|]]|] eqn:He; try discriminate.
    unfold timer_behavior_interrupted in Hfire. unfold_monad. simpl in Hfire.
    injection Hfire as <-.
    erewrite set_pstate_eq by (simpl; exact He). simpl.
    eapply timer_table_relabel; eauto.
Qed.

Lemma run_timer_inv (n0 k0 : Z) (evs : list event) (s : state) :
  run evs (configure n0 k0 init) = Some s -> timer_inv s.
Proof.
  unfold run. apply (run_under_invariant _ timer_inv).
  - intros ev s0 s1 _. apply fire_timer_inv.
  - split.
    + intros q pid Ht. simpl in Ht. rewrite lookup_empty in Ht. discriminate.
    + intros pid q st He. simpl in He. discriminate.
Qed.

(** X17.  In a state a sender can reach, the timeout of a waiting timer
    process always finds its packet and its timer entry: it retransmits
    the stored record and starts a new timer. *)
Lemma reachable_timeout_retransmits
    (n0 k0 : Z) (evs : list event) (s : state) (pid : nat) (q : Z) :
  run evs (configure n0 k0 init) = Some s ->
  env s !! pid = Some (q, Waiting) ->
  exists p s',
    sndpkt s !! q = Some p /\
    timers s !! q = Some pid /\
    fire (Proc_timeout pid) s = Some s' /\
    channel s' = channel s ++ [p] /\
    num_retransmissions s' = num_retransmissions s + 1 /\
    timers s' !! q = Some (length (env s)).
Proof.
  intros Hrun He. apply run_timer_inv in Hrun as [H1 H2].
  pose proof (H2 _ _ _ He eq_refl) as Ht.
  destruct (H1 _ _ Ht) as ([p Hp] & _).
  exists p. simpl. rewrite He.
  unfold timer_behavior_elapsed. unfold_monad. simpl.
  rewrite (timeout_action_buffered q _ p pid) by assumption. simpl.
  eexists. split; [assumption|]. split; [assumption|].
  split; [reflexivity|].
  erewrite set_pstate_eq by (simpl; apply lookup_app_l_Some; exact He).
  simpl. repeat split. apply lookup_insert_eq.
Qed.

(** *** The window invariant *)

Lemma mod_offset_inj (k b i d : Z) :
  0 <= i < k -> 0 <= d < k -> (b + i) mod k = (b + d) mod k -> i = d.
Proof.
  intros Hi Hd Heq.
  assert (Hk : 0 < k) by lia.
  assert (Hdiff : forall x y, 0 <= x <= y -> y < k ->
                    (b + x) mod k = (b + y) mod k -> x = y).
  { intros x y Hxy Hy Hmod.
    assert (Hz : (y - x) mod k = 0).
    { replace (y - x) with ((b + y) - (b + x)) by lia.
      rewrite Zminus_mod, Hmod, Z.sub_diag. apply Zmod_0_l. }
    rewrite Z.mod_small in Hz by lia. lia. }
  destruct (Z.le_ge_cases i d).
  - apply Hdiff; [lia | lia | assumption].
  - symmetry. apply Hdiff; [lia | lia | now symmetry].
Qed.

Lemma window_inv_ext (n0 k0 : Z) (s s' : state) :
  N s' = N s -> K s' = K s -> base s' = base s ->
  nextseqnum s' = nextseqnum s -> acknowledged s' = acknowledged s ->
  window_inv n0 k0 s -> window_inv n0 k0 s'.
Proof.
  unfold window_inv. intros -> -> -> -> ->. tauto.
Qed.

Lemma window_inv_distance (n0 k0 : Z) (s : state) :
  n0 < k0 -> window_inv n0 k0 s ->
  (nextseqnum s - base s) mod K s <= N s.
Proof.
  intros Hlt (HN & HK & Hbase & d & Hd & Hnext & _).
  rewrite HN, HK, Hnext, Zminus_mod_idemp_l.
  replace (base s + d - base s) with d by lia.
  rewrite Z.mod_small; lia.
Qed.

Lemma slide_window_inv (n0 k0 : Z) (fuel : nat) (s s' : state) (o : outcome unit) :
  window_inv n0 k0 s -> slide fuel s = (o, s') -> window_inv n0 k0 s'.
Proof.
  revert s s' o. induction fuel as [|fuel IH]; intros s s' o Hinv; simpl; unfold_monad.
  - now intros [= <- <-].
  - unfold slide_cond, py_del.
    destruct (acknowledged s !! base s) as [[|]|] eqn:Hack; simpl;
      try (now intros [= <- <-]).
    destruct Hinv as (HN & HK & Hbase & d & Hd & Hnext & Hkeys).
    assert (HK0 : K s <> 0) by lia.
    rewrite (py_mod_Return _ _ HK0). simpl.
    apply IH. unfold window_inv. simpl.
    destruct (Hkeys (base s)) as (j0 & Hj0 & _); [rewrite Hack; eauto|].
    assert (Hk0 : 0 < k0) by lia.
    split; [assumption|]. split; [assumption|].
    split; [rewrite HK; now apply Z.mod_pos_bound|].
    exists (d - 1). split; [lia|]. split.
    + rewrite HK, Zplus_mod_idemp_l, Hnext. f_equal. lia.
    + intros k Hk. apply lookup_delete_is_Some in Hk as [Hne Hk].
      destruct (Hkeys k Hk) as (j & Hj & ->).
      assert (Hj1 : j <> 0).
      { intros ->. apply Hne. rewrite Z.add_0_r. symmetry.
        apply Z.mod_small. lia. }
      exists (j - 1). split; [lia|].
      rewrite HK, Zplus_mod_idemp_l. f_equal. lia.
Qed.

(** One event of a timely schedule keeps the window invariant, when the
    window is shorter than the sequence space. *)
Lemma fire_window_inv (n0 k0 : Z) (ev : event) (s s' : state) :
  n0 < k0 - 1 ->
  timely ev s = true ->
  window_inv n0 k0 s ->
  fire ev s = Some s' ->
  window_inv n0 k0 s'.
Proof.
  intros Hshort Hok Hinv Hfire.
  destruct ev as [msg|packt|pid|pid|pid].
  - apply fire_send_cases in Hfire as [->|(HK0 & Hin & Hrun)]; [assumption|].
    rewrite (rdt_send_accepted s msg HK0 Hin) in Hrun. injection Hrun as <-.
    destruct Hinv as (HN & HK & Hbase & d & Hd & Hnext & Hkeys).
    apply py_in_window in Hin as (i & Hi & Hnexti).
    assert (i = d).
    { apply (mod_offset_inj k0 (base s)); [lia | lia | congruence]. }
    subst i. unfold window_inv. simpl.
    split; [assumption|]. split; [assumption|]. split; [assumption|].
    exists (d + 1). split; [lia|]. split.
    + rewrite HK, Hnext, Zplus_mod_idemp_l. f_equal. lia.
    + intros k Hk. destruct (Hkeys k Hk) as (j & Hj & ->).
      exists j. split; [lia | reflexivity].
  - simpl in Hfire, Hok.
    destruct (corrupted packt) eqn:Hbad.
    { unfold rdt_rcv in Hfire. rewrite Hbad in Hfire. simpl in Hfire.
      injection Hfire as <-. assumption. }
    simpl in Hok.
    destruct (sndpkt s !! seq_num packt) as [p|] eqn:Hbuf.
    2:{ rewrite (rdt_rcv_unbuffered _ _ Hbuf) in Hfire. simpl in Hfire.
        injection Hfire as <-. assumption. }
    rewrite (rdt_rcv_buffered _ _ Hbad) in Hfire by eauto.
    destruct (stop_timer _ _) as [[[]|ex] s2] eqn:Hstop; [|discriminate].
    apply stop_timer_frame in Hstop as (e & t & ->).
    destruct (slide _ _) as [[[]|ex] s3] eqn:Hslide; [|discriminate].
    simpl in Hfire. injection Hfire as <-.
    apply (slide_window_inv n0 k0) in Hslide; [assumption|].
    destruct Hinv as (HN & HK & Hbase & d & Hd & Hnext & Hkeys).
    unfold window_inv. simpl.
    split; [assumption|]. split; [assumption|]. split; [assumption|].
    exists d. split; [assumption|]. split; [assumption|].
    intros k Hk. apply lookup_insert_is_Some' in Hk as [<-|Hk]; [|auto].
    unfold in_flight in Hok. apply py_in_window in Hok as (j & Hj & ->).
    exists j. split; [|now rewrite HK].
    rewrite HK, Hnext, Zminus_mod_idemp_l in Hj.
    replace (base s + d - base s) with d in Hj by lia.
    rewrite Z.mod_small in Hj by lia. assumption.
  - apply fire_proc_frame in Hfire as (? & ? & ? & ? & ? & ?).
    now apply (window_inv_ext n0 k0 s).
  - apply fire_proc_frame in Hfire as (? & ? & ? & ? & ? & ?).
    now apply (window_inv_ext n0 k0 s).
  - apply fire_proc_frame in Hfire as (? & ? & ? & ? & ? & ?).
    now apply (window_inv_ext n0 k0 s).
Qed.

(** With a modulus of 1 or less no sequence number is ever in the
    window: the sender stays in its initial state. *)
Lemma fire_degenerate (n0 k0 : Z) (ev : event) (s' : state) :
  k0 <= 1 ->
  fire ev (configure n0 k0 init) = Some s' ->
  s' = configure n0 k0 init.
Proof.
  intros Hk0 Hfire. destruct ev as [msg|packt|pid|pid|pid]; try discriminate.
  - apply fire_send_cases in Hfire as [->|(HK0 & Hin & _)]; [reflexivity|].
    exfalso. apply py_in_window in Hin as (i & _ & Heq). simpl in *.
    destruct (Z.eq_dec k0 1) as [->|Hne].
    + rewrite Z.mod_1_r in Heq. discriminate.
    + pose proof (Z.mod_neg_bound (1 + i) k0). lia.
  - simpl in Hfire. rewrite rdt_rcv_unbuffered in Hfire by reflexivity.
    simpl in Hfire. congruence.
Qed.

(** C4, as the code has it.  Take a sender with any window size
    [n0 >= 0] and any modulus [k0], and any schedule of submissions,
    timer events and acknowledgments in which every uncorrupted
    acknowledgment arrives while its packet is in flight.  In every state
    such a schedule reaches, [(nextseqnum - base) mod K <= N].  Moreover,
    in any state at all, [nextseqnum] changes only in an accepted
    [rdt_send], that is only while its value is inside the current
    window, and its new value is the successor modulo [K] of the old
    one. *)
Theorem window_bound_timely :
  (forall (n0 k0 : Z) (evs : list event) (s : state),
     0 <= n0 ->
     run_under timely evs (configure n0 k0 init) = Some s ->
     (nextseqnum s - base s) mod K s <= N s) /\
  (forall (ev : event) (s s' : state),
     fire ev s = Some s' ->
     nextseqnum s' <> nextseqnum s ->
     exists msg, ev = App_send msg /\
       (exists i, 0 <= i < N s /\ nextseqnum s = (base s + i) mod K s) /\
       nextseqnum s' = (nextseqnum s + 1) mod K s).
Proof.
  split.
  - intros n0 k0 evs s Hn0 Hrun.
    destruct (Z_le_gt_dec k0 1) as [Hk|Hk].
    { assert (Hs : s = configure n0 k0 init).
      { revert Hrun.
        apply (run_under_invariant timely (fun s => s = configure n0 k0 init));
          [|reflexivity].
        intros ev s0 s1 _ -> Hfire. now apply (fire_degenerate n0 k0 ev). }
      subst s. simpl. rewrite Zmod_0_l. assumption. }
    destruct (Z_lt_ge_dec n0 (k0 - 1)) as [Hshort|Hlong].
    + apply (window_inv_distance n0 k0); [lia|].
      revert Hrun. apply (run_under_invariant timely (window_inv n0 k0)).
      * intros ev s0 s1 Hok Hinv Hfire.
        now apply (fire_window_inv n0 k0 ev s0 s1).
      * unfold window_inv. simpl.
        split; [reflexivity|]. split; [reflexivity|]. split; [lia|].
        exists 0. split; [lia|]. split.
        -- symmetry. apply Z.mod_small. lia.
        -- intros k [v Hv]. rewrite lookup_empty in Hv. discriminate.
    + assert (Hcfg : N s = n0 /\ K s = k0).
      { revert Hrun.
        apply (run_under_invariant timely (fun s => N s = n0 /\ K s = k0));
          [|split; reflexivity].
        intros ev s0 s1 _ [HN HK] Hfire.
        destruct (fire_config _ _ _ Hfire) as [-> ->]. now split. }
      destruct Hcfg as [-> ->].
      pose proof (Z.mod_pos_bound (nextseqnum s - base s) k0). lia.
  - intros ev s s' Hfire Hmoved.
    destruct (fire_nextseqnum _ _ _ Hfire) as [Hsame|(msg & -> & _ & Hwin & Hnext)].
    + contradiction.
    + exists msg. repeat split; assumption.
Qed.

(** Scenario A of the spec: four packets out, the first acknowledged, a
    fifth one accepted; the window is full again. *)
Lemma window_bound_timely_witness :
  let s := default init (run_under timely scenario_A (configure 4 8 init)) in
  (base s, nextseqnum s) = (2, 6) /\
  (nextseqnum s - base s) mod K s <= N s.
Proof.
  intros s. split; [reflexivity|].
  apply (proj1 window_bound_timely 4 8 scenario_A s); [lia|].
  vm_compute. reflexivity.
Defined.

(** Against the spec's wording, on both counts, with [N = 4] and [K = 8].
    After [stale_ack_schedule], [base] is 2 and [nextseqnum] is 1, seven
    steps ahead.  And the fourth submission of a fresh sender assigns 5
    to [nextseqnum], which is not in the window 1..4. *)
Lemma window_bound_counterexample :
  (exists s,
     run stale_ack_schedule (configure 4 8 init) = Some s /\
     (base s, nextseqnum s) = (2, 1) /\
     ~ (nextseqnum s - base s) mod K s <= N s) /\
  (exists s s',
     run [App_send "a"; App_send "b"; App_send "c"] (configure 4 8 init) = Some s /\
     fire (App_send "d") s = Some s' /\
     nextseqnum s' = 5 /\
     window (base s') (N s') (K s') = Return [1; 2; 3; 4] /\
     py_in (nextseqnum s') [1; 2; 3; 4] = false).
Proof.
  split.
  - eexists. split; [vm_compute; reflexivity|].
    split; [reflexivity|]. vm_compute. intros H. apply H. reflexivity.
  - eexists. eexists. split; [vm_compute; reflexivity|].
    split; [vm_compute; reflexivity|]. repeat split.
Qed.

(** *** The default configuration *)

Lemma full_window_accepts (s : state) (msg : string) :
  0 < K s -> K s <= N s -> 0 <= nextseqnum s < K s ->
  rdt_send msg s = (Return true, snd (rdt_send msg s)).
Proof.
  intros HK HN Hnext.
  assert (HK0 : K s <> 0) by lia.
  assert (Hin : py_in (nextseqnum s)
                  (map (fun i => (base s + i) mod K s) (range 0 (N s))) = true).
  { apply py_in_window. exists ((nextseqnum s - base s) mod K s). split.
    - pose proof (Z.mod_pos_bound (nextseqnum s - base s) (K s) HK). lia.
    - rewrite Zplus_mod_idemp_r.
      replace (base s + (nextseqnum s - base s)) with (nextseqnum s) by lia.
      symmetry. now apply Z.mod_small. }
  now rewrite (rdt_send_accepted s msg HK0 Hin).
Qed.

(** C10.  With the constructor's [N = 16] and [K = 16] the window list
    holds every sequence number 0..15 whatever [base] is; hence, in every
    state a fresh sender can reach, whatever has been sent, acknowledged
    or timed out, [rdt_send] returns [True]; and [K >= 2 * N] is false
    for these defaults. *)
Theorem default_window_never_rejects :
  (forall b x : Z, 0 <= x < 16 ->
     exists w, window b (N init) (K init) = Return w /\ py_in x w = true) /\
  (forall (evs : list event) (s : state) (msg : string),
     run evs init = Some s -> fst (rdt_send msg s) = Return true) /\
  ~ (K init >= 2 * N init).
Proof.
  split; [|split].
  - intros b x Hx. change (N init) with 16. change (K init) with 16.
    eexists. split; [apply window_Return; lia|].
    apply py_in_window. exists ((x - b) mod 16). split.
    + pose proof (Z.mod_pos_bound (x - b) 16). lia.
    + rewrite Zplus_mod_idemp_r. replace (b + (x - b)) with x by lia.
      symmetry. now apply Z.mod_small.
  - intros evs s msg Hrun.
    assert (Hinv : N s = 16 /\ K s = 16 /\ 0 <= nextseqnum s < 16).
    { revert Hrun. unfold run.
      apply (run_under_invariant _
               (fun s => N s = 16 /\ K s = 16 /\ 0 <= nextseqnum s < 16)).
      - intros ev s0 s1 _ (HN & HK & Hnext) Hfire.
        destruct (fire_config _ _ _ Hfire) as [HN' HK'].
        split; [congruence|]. split; [congruence|].
        destruct (fire_nextseqnum _ _ _ Hfire) as [->|(m & _ & _ & _ & ->)];
          [assumption|].
        rewrite HK. apply Z.mod_pos_bound. lia.
      - simpl. lia. }
    destruct Hinv as (HN & HK & Hnext).
    rewrite full_window_accepts; [reflexivity|lia..].
  - simpl. lia.
Qed.

(** Twenty submissions in a row, none acknowledged: the twenty-first is
    accepted as well. *)
Lemma default_window_never_rejects_witness :
  let evs := repeat (App_send "x") 20 in
  let s := default init (run evs init) in
  base s = 1 /\ total_packets_sent s = 20 /\
  fst (rdt_send "y" s) = Return true.
Proof.
  intros evs s. split; [reflexivity|]. split; [reflexivity|].
  apply (proj1 (proj2 default_window_never_rejects) evs s "y").
  vm_compute. reflexivity.
Defined.

End SenderTheory.

(** ** The receiver's method *)

Module ReceiverTheory.
Import rdt_Receiver.

(** The delivery loop, run with at least as much fuel as the buffer has
    keys, stops because [base] is missing from the buffer, never because
    the fuel is used up.  It visits [n] successive bases, all of them
    buffered and pairwise different, delivers their payloads in that
    order and removes them. *)
Lemma receiver_slide_spec (fuel : nat) (s : state) :
  K s <> 0 ->
  (size (received_packets s) <= fuel)%nat ->
  exists (n : nat) (pkts : list Packet),
    Forall2 (fun k p => received_packets s !! k = Some p)
            (bases (K s) (base s) n) pkts /\
    NoDup (bases (K s) (base s) n) /\
    delete_all (bases (K s) (base s) n) (received_packets s)
      !! base_after (K s) (base s) n = None /\
    slide fuel s =
      (Return tt,
       {| channel := channel s;
          receiving_app := receiving_app s ++ map payload pkts;
          ack_packet_length := ack_packet_length s;
          K := K s;
          expectedseqnum := expectedseqnum s;
          receiving_window := receiving_window s;
          base := base_after (K s) (base s) n;
          sndpkt := sndpkt s;
          total_packets_sent := total_packets_sent s;
          num_retransmissions := num_retransmissions s;
          received_packets :=
            delete_all (bases (K s) (base s) n) (received_packets s) |}).
Proof.
  revert s. induction fuel as [|fuel IH]; intros s HK Hsize.
  - exists 0%nat, []. simpl.
    assert (Hempty : received_packets s = ∅).
    { apply map_size_empty_iff. lia. }
    repeat split; try constructor.
    + rewrite Hempty. apply lookup_empty.
    + unfold_monad. rewrite app_nil_r. now destruct s.
  - simpl. unfold_monad.
    destruct (bool_decide (base s ∈ dom (received_packets s))) eqn:Hdom.
    + apply bool_decide_eq_true in Hdom. apply elem_of_dom in Hdom.
      destruct Hdom as [p Hp].
      unfold py_getitem, py_del, deliver_data. unfold_monad. simpl.
      rewrite Hp. simpl. rewrite Hp. simpl.
      rewrite (py_mod_Return _ _ HK). simpl.
      match goal with
      | |- context [slide fuel ?s1] => set (s1' := s1)
      end.
      destruct (IH s1' HK) as (n & pkts & Hall & Hnd & Hexit & Hrun).
      { subst s1'. simpl.
        rewrite map_size_delete, Hp. simpl. lia. }
      subst s1'. simpl in *.
      exists (S n), (p :: pkts). simpl. repeat split.
      * constructor; [assumption|].
        eapply Forall2_impl; [exact Hall|].
        intros k q Hq. simpl in Hq. apply lookup_delete_Some in Hq. tauto.
      * constructor; [|assumption].
        intros Hin. destruct (Forall2_elem_of_l _ _ _ _ Hall Hin) as (q & Hq).
        simpl in Hq. apply lookup_delete_Some in Hq. tauto.
      * exact Hexit.
      * rewrite Hrun. rewrite <- app_assoc. reflexivity.
    + apply bool_decide_eq_false in Hdom. rewrite not_elem_of_dom in Hdom.
      exists 0%nat, []. simpl. repeat split; try constructor.
      * exact Hdom.
      * rewrite app_nil_r. now destruct s.
Qed.

(** [rdt_rcv] up to its loop, for a packet inside the window: the
    acknowledgment is out, the packet is in the buffer. *)
Lemma rdt_rcv_enters_loop (s : state) (packt : Packet) (w : list Z) :
  corrupted packt = false ->
  window (base s) (receiving_window s) (K s) = Return w ->
  py_in (seq_num packt) w = true ->
  let buf := <[seq_num packt := packt]> (received_packets s) in
  let ack := new_Packet (seq_num packt) "ACK" (ack_packet_length s) in
  rdt_rcv packt s =
    slide (size buf)
      {| channel := channel s ++ [ack];
         receiving_app := receiving_app s;
         ack_packet_length := ack_packet_length s;
         K := K s;
         expectedseqnum := expectedseqnum s;
         receiving_window := receiving_window s;
         base := base s;
         sndpkt := ack;
         total_packets_sent := total_packets_sent s + 1;
         num_retransmissions := num_retransmissions s;
         received_packets := buf |}.
Proof.
  intros Hok Hw Hin buf ack.
  unfold rdt_rcv. rewrite Hok. simpl. unfold udt_send. unfold_monad. simpl.
  now rewrite Hw, Hin.
Qed.

(** C2.  A packet that is not corrupted and whose [seq_num] is in the
    receive window is stored in [received_packets] at its [seq_num]
    (replacing what was there); then the loop runs [n] times, for the
    successive bases [base], [(base + 1) % K], ...: each of them is in the
    buffer, its payload is delivered, in that order, and its entry is
    removed; the loop ends on the first base missing from the buffer, and
    that is the new [base]. *)
Theorem rdt_rcv_in_window (s : state) (packt : Packet) (w : list Z) :
  corrupted packt = false ->
  window (base s) (receiving_window s) (K s) = Return w ->
  py_in (seq_num packt) w = true ->
  let buf := <[seq_num packt := packt]> (received_packets s) in
  let ack := new_Packet (seq_num packt) "ACK" (ack_packet_length s) in
  exists (n : nat) (pkts : list Packet),
    Forall2 (fun k p => buf !! k = Some p) (bases (K s) (base s) n) pkts /\
    NoDup (bases (K s) (base s) n) /\
    delete_all (bases (K s) (base s) n) buf
      !! base_after (K s) (base s) n = None /\
    rdt_rcv packt s =
      (Return tt,
       {| channel := channel s ++ [ack];
          receiving_app := receiving_app s ++ map payload pkts;
          ack_packet_length := ack_packet_length s;
          K := K s;
          expectedseqnum := expectedseqnum s;
          receiving_window := receiving_window s;
          base := base_after (K s) (base s) n;
          sndpkt := ack;
          total_packets_sent := total_packets_sent s + 1;
          num_retransmissions := num_retransmissions s;
          received_packets := delete_all (bases (K s) (base s) n) buf |}).
Proof.
  intros Hok Hw Hin buf ack.
  assert (HK : K s <> 0).
  { apply (window_nonempty_nonzero _ _ _ _ Hw). intros ->. discriminate Hin. }
  rewrite (rdt_rcv_enters_loop s packt w Hok Hw Hin).
  match goal with
  | |- context [slide ?f ?s1] => set (s1' := s1); set (fuel := f)
  end.
  destruct (receiver_slide_spec fuel s1' HK) as (n & pkts & Hall & Hnd & Hexit & Hrun).
  { subst fuel s1'. simpl. lia. }
  subst s1'. simpl in *.
  exists n, pkts. repeat split; try assumption.
Qed.

(** Scenario C of the spec, second half: [base] is 2, packet 3 is already
    buffered, packet 2 arrives. *)
Lemma rdt_rcv_in_window_witness :
  let s := set_received_packets {[ 3 := new_Packet 3 "three" 10 ]}
             (set_base 2 (configure 4 8 init)) in
  let packt := new_Packet 2 "two" 10 in
  let buf := <[2 := packt]> (received_packets s) in
  exists (n : nat) (pkts : list Packet),
    Forall2 (fun k p => buf !! k = Some p) (bases 8 2 n) pkts /\
    NoDup (bases 8 2 n) /\
    delete_all (bases 8 2 n) buf !! base_after 8 2 n = None /\
    rdt_rcv packt s =
      (Return tt,
       {| channel := [new_Packet 2 "ACK" 10];
          receiving_app := map payload pkts;
          ack_packet_length := 10;
          K := 8;
          expectedseqnum := 1;
          receiving_window := 4;
          base := base_after 8 2 n;
          sndpkt := new_Packet 2 "ACK" 10;
          total_packets_sent := 1;
          num_retransmissions := 0;
          received_packets := delete_all (bases 8 2 n) buf |}).
Proof.
  intros s packt buf.
  apply (rdt_rcv_in_window s packt [2; 3; 4; 5]); reflexivity.
Defined.

(** Scenario C played from a fresh receiver: 1 is delivered on arrival,
    3 is only buffered, and the arrival of 2 delivers 2 and then 3. *)
Example scenario_C :
  let r0 := configure 4 8 init in
  let r1 := snd (rdt_rcv (new_Packet 1 "one" 10) r0) in
  let r2 := snd (rdt_rcv (new_Packet 3 "three" 10) r1) in
  let r3 := snd (rdt_rcv (new_Packet 2 "two" 10) r2) in
  (receiving_app r1, base r1) = (["one"%string], 2) /\
  (receiving_app r2, base r2, received_packets r2 !! 3)
    = (["one"%string], 2, Some (new_Packet 3 "three" 10)) /\
  (receiving_app r3, base r3, received_packets r3)
    = (["one"; "two"; "three"]%string, 4, ∅).
Proof. vm_compute. repeat split. Qed.

(** C8.  For a packet that is not corrupted (and a modulus that is not
    zero), whether or not its [seq_num] is in the window, the
    acknowledgment for that [seq_num] is appended to the channel and
    [total_packets_sent] grows by one.  When the [seq_num] is outside the
    window, nothing is buffered or delivered, [base] stays, and the only
    further change is [num_retransmissions] growing by one. *)
Theorem rdt_rcv_acknowledges (s : state) (packt : Packet) :
  corrupted packt = false ->
  K s <> 0 ->
  let ack := new_Packet (seq_num packt) "ACK" (ack_packet_length s) in
  let s' := snd (rdt_rcv packt s) in
  fst (rdt_rcv packt s) = Return tt /\
  channel s' = channel s ++ [ack] /\
  total_packets_sent s' = total_packets_sent s + 1 /\
  ((~ exists i, 0 <= i < receiving_window s /\
                seq_num packt = (base s + i) mod K s) ->
   s' = {| channel := channel s ++ [ack];
           receiving_app := receiving_app s;
           ack_packet_length := ack_packet_length s;
           K := K s;
           expectedseqnum := expectedseqnum s;
           receiving_window := receiving_window s;
           base := base s;
           sndpkt := ack;
           total_packets_sent := total_packets_sent s + 1;
           num_retransmissions := num_retransmissions s + 1;
           received_packets := received_packets s |}).
Proof.
  intros Hok HK ack s'.
  destruct (py_in (seq_num packt)
              (map (fun i => (base s + i) mod K s) (range 0 (receiving_window s))))
    eqn:Hin.
  - subst s'.
    rewrite (rdt_rcv_enters_loop s packt _ Hok (window_Return _ _ _ HK) Hin).
    match goal with
    | |- context [slide ?f ?s1] =>
        destruct (receiver_slide_spec f s1 HK) as (n & pkts & _ & _ & _ & Hrun);
          [simpl; lia|]
    end.
    rewrite Hrun. simpl. repeat split.
    intros Hout. exfalso. apply Hout. now apply py_in_window.
  - subst s'. unfold rdt_rcv. rewrite Hok. simpl. unfold udt_send.
    unfold_monad. simpl. rewrite (window_Return _ _ _ HK), Hin. simpl.
    repeat split.
Qed.

(** A packet for sequence number 7 at a fresh receiver with window 4 and
    modulus 8, whose window is 1..4. *)
Lemma rdt_rcv_acknowledges_witness :
  let s := configure 4 8 init in
  let s' := snd (rdt_rcv (new_Packet 7 "late" 10) s) in
  fst (rdt_rcv (new_Packet 7 "late" 10) s) = Return tt /\
  channel s' = [new_Packet 7 "ACK" 10] /\
  total_packets_sent s' = 1 /\
  num_retransmissions s' = 1 /\
  received_packets s' = ∅ /\
  receiving_app s' = [] /\
  base s' = 1.
Proof.
  intros s s'.
  destruct (rdt_rcv_acknowledges s (new_Packet 7 "late" 10)) as (Hret & Hch & Htot & Hout).
  - reflexivity.
  - simpl. lia.
  - assert (Hs' : s' = snd (rdt_rcv (new_Packet 7 "late" 10) s)) by reflexivity.
    rewrite Hout in Hs'.
    + rewrite Hs'. simpl. repeat split.
    + intros (i & Hi & Heq).
      change (0 <= i < 4) in Hi. change (7 = (1 + i) mod 8) in Heq.
      rewrite Z.mod_small in Heq by lia. lia.
Defined.

End ReceiverTheory.

(** ** Corrupted input, at both ends *)

(** C6.  A corrupted acknowledgment leaves the sender as it was, and a
    corrupted packet leaves the receiver as it was: both methods return
    normally in the state they were called in, so nothing is put on the
    channel, buffered or delivered, and no counter or base moves. *)
Theorem corrupted_input_is_dropped
    (s : rdt_Sender.state) (r : rdt_Receiver.state) (packt : Packet) :
  corrupted packt = true ->
  rdt_Sender.rdt_rcv packt s = (Return tt, s) /\
  rdt_Receiver.rdt_rcv packt r = (Return tt, r).
Proof.
  intros Hbad. unfold rdt_Sender.rdt_rcv, rdt_Receiver.rdt_rcv.
  rewrite Hbad. split; reflexivity.
Qed.

Lemma corrupted_input_is_dropped_witness :
  let packt := mkPacket 1 "garbled" 10 true in
  rdt_Sender.rdt_rcv packt (snd (rdt_Sender.rdt_send "a" rdt_Sender.init))
    = (Return tt, snd (rdt_Sender.rdt_send "a" rdt_Sender.init)) /\
  rdt_Receiver.rdt_rcv packt rdt_Receiver.init = (Return tt, rdt_Receiver.init).
Proof.
  intros packt. apply (corrupted_input_is_dropped _ _ packt). reflexivity.
Defined.

(** * Further properties *)

(** ** The window in closed form *)

(** Membership in the window list is a bound on the distance from
    [base], counted modulo [K]. *)
Lemma py_in_window_distance (x b n k : Z) :
  0 < k ->
  py_in x (map (fun i => (b + i) mod k) (range 0 n)) = true <->
  0 <= x < k /\ (x - b) mod k < n.
Proof.
  intros Hk. rewrite py_in_window. split.
  - intros (i & Hi & ->). split; [now apply Z.mod_pos_bound|].
    rewrite Zminus_mod_idemp_l. replace (b + i - b) with i by lia.
    pose proof (Z.mod_le i k). lia.
  - intros [Hx Hd]. exists ((x - b) mod k). split.
    + pose proof (Z.mod_pos_bound (x - b) k Hk). lia.
    + rewrite Zplus_mod_idemp_r. replace (b + (x - b)) with x by lia.
      symmetry. now apply Z.mod_small.
Qed.

Lemma window_zero_modulus (b n : Z) :
  window b n 0 = if Z.ltb 0 n then Raise ZeroDivisionError else Return [].
Proof.
  unfold window, range. destruct (Z.ltb_spec 0 n) as [Hn|Hn].
  - destruct (Z.to_nat (n - 0)) as [|m] eqn:Hm; [lia|]. reflexivity.
  - replace (Z.to_nat (n - 0)) with 0%nat by lia. reflexivity.
Qed.

Module SenderExtras.
Import rdt_Sender SenderTheory.

(** X1.  With a positive modulus, [rdt_send] accepts exactly when
    [nextseqnum] is a residue modulo [K] and fewer than [N] sequence
    numbers separate it from [base]: [(nextseqnum - base) mod K < N]. *)
Theorem rdt_send_accepts_iff_room (s : state) (msg : string) :
  0 < K s ->
  (fst (rdt_send msg s) = Return true <->
   0 <= nextseqnum s < K s /\ (nextseqnum s - base s) mod K s < N s) /\
  (fst (rdt_send msg s) = Return false <->
   ~ (0 <= nextseqnum s < K s /\ (nextseqnum s - base s) mod K s < N s)).
Proof.
  intros HK. assert (HK0 : K s <> 0) by lia.
  pose proof (py_in_window_distance (nextseqnum s) (base s) (N s) (K s) HK) as Hiff.
  destruct (py_in (nextseqnum s) _) eqn:Hin.
  - rewrite (rdt_send_accepted s msg HK0 Hin). simpl.
    assert (Hroom : 0 <= nextseqnum s < K s /\
                    (nextseqnum s - base s) mod K s < N s) by now apply Hiff.
    split; split; try tauto; discriminate.
  - rewrite (rdt_send_rejected s msg HK0 Hin). simpl.
    assert (Hfull : ~ (0 <= nextseqnum s < K s /\
                       (nextseqnum s - base s) mod K s < N s)).
    { intros Hroom. apply Hiff in Hroom. discriminate. }
    split; split; try tauto; discriminate.
Qed.

(** A sender with [N = 4], [K = 8], [base = 6], [nextseqnum = 1]: three
    packets (6, 7, 0) are out, there is room for a fourth. *)
Lemma rdt_send_accepts_iff_room_witness :
  fst (rdt_send "a"
         (set_nextseqnum 1 (set_base 6 (configure 4 8 init)))) = Return true.
Proof.
  destruct (rdt_send_accepts_iff_room
              (set_nextseqnum 1 (set_base 6 (configure 4 8 init))) "a")
    as [Haccept _].
  - simpl. lia.
  - apply Haccept. simpl. split; [lia|]. reflexivity.
Defined.

Lemma rdt_send_zero_modulus_cases (s : state) (msg : string) :
  K s = 0 ->
  rdt_send msg s =
    if Z.ltb 0 (N s) then (Raise ZeroDivisionError, s) else (Return false, s).
Proof.
  intros HK. unfold rdt_send. unfold_monad.
  rewrite HK, window_zero_modulus. now destruct (Z.ltb 0 (N s)).
Qed.

Lemma print_status_cases (s : state) :
  print_status s =
    if Z.eqb (K s) 0 && Z.ltb 0 (N s)
    then (Raise ZeroDivisionError, s) else (Return tt, s).
Proof.
  unfold print_status. unfold_monad.
  destruct (Z.eqb_spec (K s) 0) as [HK|HK]; simpl.
  - rewrite HK, window_zero_modulus. now destruct (Z.ltb 0 (N s)).
  - now rewrite (window_Return _ _ _ HK).
Qed.

(** X2.  The only exception [rdt_send] and [print_status] can raise is
    [ZeroDivisionError], from the window expression, and they raise it
    exactly when [K] is zero and [N] is positive; the sender is then left
    as it was.  [print_status] never changes the sender. *)
Theorem window_expression_raises (s : state) (msg : string) :
  (fst (rdt_send msg s) = Raise ZeroDivisionError <-> K s = 0 /\ 0 < N s) /\
  (fst (print_status s) = Raise ZeroDivisionError <-> K s = 0 /\ 0 < N s) /\
  (forall e, fst (rdt_send msg s) = Raise e ->
     e = ZeroDivisionError /\ snd (rdt_send msg s) = s) /\
  (forall e, fst (print_status s) = Raise e -> e = ZeroDivisionError) /\
  snd (print_status s) = s.
Proof.
  rewrite print_status_cases.
  destruct (Z.eqb_spec (K s) 0) as [HK|HK]; simpl.
  - rewrite (rdt_send_zero_modulus_cases s msg HK).
    destruct (Z.ltb_spec 0 (N s)) as [HN|HN]; simpl.
    + split; [tauto|]. split; [tauto|].
      split; [intros e [= <-]; now split|].
      split; [now intros e [= <-] | reflexivity].
    + split; [split; [discriminate | lia]|].
      split; [split; [discriminate | lia]|].
      split; [intros e; discriminate|].
      split; [intros e; discriminate | reflexivity].
  - assert (Hno : ~ (K s = 0 /\ 0 < N s)) by tauto.
    destruct (py_in (nextseqnum s)
                (map (fun i => (base s + i) mod K s) (range 0 (N s)))) eqn:Hin;
      [rewrite (rdt_send_accepted s msg HK Hin)
      |rewrite (rdt_send_rejected s msg HK Hin)]; simpl;
      (split; [split; [discriminate | tauto]|];
       split; [split; [discriminate | tauto]|];
       split; [intros e; discriminate|];
       split; [intros e; discriminate | reflexivity]).
Qed.

Lemma window_expression_raises_witness :
  fst (rdt_send "a" (configure 4 0 init)) = Raise ZeroDivisionError /\
  snd (rdt_send "a" (configure 4 0 init)) = configure 4 0 init.
Proof.
  pose proof (window_expression_raises (configure 4 0 init) "a")
    as (Hsend & _ & Hstate & _).
  assert (Hraise : fst (rdt_send "a" (configure 4 0 init)) = Raise ZeroDivisionError).
  { apply Hsend. simpl. lia. }
  split; [exact Hraise|]. exact (proj2 (Hstate _ Hraise)).
Defined.

(** The state [stop_timer] leaves behind, whenever the handle it finds
    is not that of a terminated process. *)
Lemma stop_timer_cancels (seq : Z) (s : state) :
  (forall pid, timers s !! seq = Some pid ->
     exists q st, env s !! pid = Some (q, st) /\ is_triggered st = false) ->
  exists e,
    stop_timer seq s = (Return tt, set_timers (delete seq (timers s)) (set_env e s)) /\
    length e = length (env s) /\
    (forall pid, timers s !! seq = Some pid ->
       exists q started, e !! pid = Some (q, Interrupted started)).
Proof.
  intros Hrun. destruct (timers s !! seq) as [pid|] eqn:Ht.
  - destruct (Hrun pid eq_refl) as (q & st & He & Hst).
    destruct (stop_timer_running seq s pid q st Ht He Hst) as [started Hstop].
    exists (<[pid := (q, Interrupted started)]> (env s)).
    split; [assumption|]. split; [apply length_insert|].
    intros pid' [= <-]. exists q, started.
    apply list_lookup_insert_eq. eapply lookup_lt_Some; eauto.
  - exists (env s). rewrite (stop_timer_missing s seq Ht).
    rewrite delete_id by assumption.
    split; [now destruct s|]. split; [reflexivity|]. intros pid [=].
Qed.

(** X3.  An uncorrupted acknowledgment for a buffered sequence number
    (modulus not zero, timer process not terminated) marks it
    acknowledged, removes its timer entry and interrupts its timer
    process, and then slides: [base] moves over [n] successive sequence
    numbers, each of them marked acknowledged, whose marks are deleted,
    and stops at the first one that is not marked.  An acknowledgment for
    another number than [base], while [base] is unmarked, moves nothing
    ([n = 0]); one for [base] moves it at least one step.  Nothing else
    changes: not [nextseqnum], not [sndpkt], not the channel, not the
    counters. *)
Theorem rdt_rcv_ack_slides (s : state) (packt : Packet) :
  corrupted packt = false ->
  is_Some (sndpkt s !! seq_num packt) ->
  K s <> 0 ->
  (forall pid, timers s !! seq_num packt = Some pid ->
     exists q st, env s !! pid = Some (q, st) /\ is_triggered st = false) ->
  let marked := <[seq_num packt := true]> (acknowledged s) in
  let s' := snd (rdt_rcv packt s) in
  exists n : nat,
    fst (rdt_rcv packt s) = Return tt /\
    Forall (fun k => marked !! k = Some true) (bases (K s) (base s) n) /\
    acknowledged s' !! base s' <> Some true /\
    base s' = base_after (K s) (base s) n /\
    acknowledged s' = delete_all (bases (K s) (base s) n) marked /\
    timers s' = delete (seq_num packt) (timers s) /\
    (forall pid, timers s !! seq_num packt = Some pid ->
       exists q started, env s' !! pid = Some (q, Interrupted started)) /\
    (N s', K s', nextseqnum s', sndpkt s', channel s',
     total_packets_sent s', num_retransmissions s')
    = (N s, K s, nextseqnum s, sndpkt s, channel s,
       total_packets_sent s, num_retransmissions s) /\
    (seq_num packt <> base s -> acknowledged s !! base s <> Some true -> n = 0%nat) /\
    (seq_num packt = base s -> (0 < n)%nat).
Proof.
  intros Hok Hbuf HK Hrun marked s'. subst s' marked.
  rewrite (rdt_rcv_buffered _ _ Hok Hbuf).
  destruct (stop_timer_cancels (seq_num packt)
              (set_acknowledged (<[seq_num packt := true]> (acknowledged s)) s))
    as (e & Hstop & Hlen & Hint).
  { destruct s; exact Hrun. }
  rewrite Hstop.
  match goal with
  | |- context [slide ?f ?s2] =>
      destruct (sender_slide_spec f s2) as (n & Hall & Hnd & Hexit & Hslide);
        [destruct s; exact HK | reflexivity |]
  end.
  rewrite Hslide. exists n. simpl in *.
  split; [reflexivity|]. split; [exact Hall|]. split; [exact Hexit|].
  split; [reflexivity|]. split; [reflexivity|]. split; [reflexivity|].
  split; [intros pid Ht; apply Hint; destruct s; exact Ht|].
  split; [reflexivity|]. split.
  - intros Hne Hbase. destruct n as [|n]; [reflexivity|]. exfalso.
    simpl in Hall. apply Forall_cons in Hall as [Hhead _].
    rewrite lookup_insert_ne in Hhead by assumption.
    contradiction.
  - intros Heq. destruct n as [|n]; [|lia]. exfalso. simpl in Hexit.
    apply Hexit. rewrite Heq. apply lookup_insert_eq.
Qed.

(** Packets 1 and 2 are out; the acknowledgment for 2 arrives first and
    moves nothing, the one for 1 then moves [base] to 3. *)
Lemma rdt_rcv_ack_slides_witness :
  let s0 := snd (rdt_send "b" (snd (rdt_send "a" (configure 4 8 init)))) in
  let s1 := snd (rdt_rcv (ack_for 2) s0) in
  exists n : nat,
    fst (rdt_rcv (ack_for 1) s1) = Return tt /\
    base (snd (rdt_rcv (ack_for 1) s1)) = base_after 8 1 n /\
    (0 < n)%nat.
Proof.
  intros s0 s1.
  destruct (rdt_rcv_ack_slides s1 (ack_for 1))
    as (n & Hret & _ & _ & Hbase & _ & _ & _ & _ & _ & Hpos).
  - reflexivity.
  - vm_compute. eauto.
  - vm_compute. discriminate.
  - intros pid Ht. vm_compute in Ht. injection Ht as <-.
    exists 1, Created. split; reflexivity.
  - exists n. split; [exact Hret|]. split; [exact Hbase|].
    apply Hpos. reflexivity.
Defined.

(** *** Over whole schedules *)

Lemma run_config (evs : list event) (s0 s : state) :
  run evs s0 = Some s -> N s = N s0 /\ K s = K s0.
Proof.
  unfold run.
  apply (run_under_invariant _ (fun s => N s = N s0 /\ K s = K s0));
    [|now split].
  intros ev s1 s2 _ [HN HK] Hfire.
  destruct (fire_config _ _ _ Hfire) as [-> ->]. now split.
Qed.

(** X4.  In every state a sender reaches, the timer table and the timer
    processes agree: each entry of [timers] is the handle of a process
    created for that sequence number which can still fire, and that
    sequence number is buffered; each process that can still fire is the
    one in the table; so no sequence number has two timers running. *)
Theorem timer_table_consistent (n0 k0 : Z) (evs : list event) (s : state) :
  run evs (configure n0 k0 init) = Some s ->
  (forall q pid, timers s !! q = Some pid ->
     is_Some (sndpkt s !! q) /\
     exists st, env s !! pid = Some (q, st) /\ is_live st = true) /\
  (forall pid q st,
     env s !! pid = Some (q, st) -> is_live st = true ->
     timers s !! q = Some pid) /\
  (forall pid pid' q st st',
     env s !! pid = Some (q, st) -> is_live st = true ->
     env s !! pid' = Some (q, st') -> is_live st' = true ->
     pid = pid').
Proof.
  intros Hrun. destruct (run_timer_inv _ _ _ _ Hrun) as [H1 H2].
  split; [exact H1|]. split; [exact H2|].
  intros pid pid' q st st' He Hst He' Hst'.
  pose proof (H2 _ _ _ He Hst) as Ht. pose proof (H2 _ _ _ He' Hst') as Ht'.
  congruence.
Qed.

(** After [wrap_schedule] the waiting process 16, created for sequence
    number 2, is the one the timer table holds for 2. *)
Lemma timer_table_consistent_witness :
  timers (default init (run wrap_schedule init)) !! 2 = Some 16%nat.
Proof.
  destruct (timer_table_consistent 16 16 wrap_schedule
              (default init (run wrap_schedule init))) as (_ & Hlive & _).
  - vm_compute. reflexivity.
  - apply (Hlive 16%nat 2 Waiting); reflexivity.
Defined.

(** X5.  In every state a sender with a modulus other than zero reaches,
    none of [rdt_send], [rdt_rcv], [start_timer], [stop_timer] and
    [print_status] raises, whatever the argument: no [KeyError] from a
    [del], no refused [interrupt()], no [ZeroDivisionError].  In
    particular [stop_timer] never finds a terminated process: it removes
    the timer entry it is asked to stop. *)
Theorem reachable_sender_never_raises
    (n0 k0 : Z) (evs : list event) (s : state) :
  k0 <> 0 ->
  run evs (configure n0 k0 init) = Some s ->
  (forall msg, exists b, fst (rdt_send msg s) = Return b) /\
  (forall packt, fst (rdt_rcv packt s) = Return tt) /\
  (forall seq, fst (start_timer seq s) = Return tt) /\
  (forall seq, fst (stop_timer seq s) = Return tt /\
               timers (snd (stop_timer seq s)) !! seq = None) /\
  fst (print_status s) = Return tt.
Proof.
  intros Hk0 Hrun.
  assert (HK : K s <> 0).
  { destruct (run_config _ _ _ Hrun) as [_ ->]. exact Hk0. }
  destruct (run_timer_inv _ _ _ _ Hrun) as [H1 _].
  assert (Hlive : forall (a : gmap Z bool) seq pid,
            timers (set_acknowledged a s) !! seq = Some pid ->
            exists q st, env (set_acknowledged a s) !! pid = Some (q, st) /\
                         is_triggered st = false).
  { intros a seq pid Ht. simpl in Ht.
    destruct (H1 _ _ Ht) as (_ & st & He & Hst).
    exists seq, st. split; [exact He|]. now destruct st. }
  split; [|split; [|split; [|split]]].
  - intros msg.
    destruct (py_in (nextseqnum s)
                (map (fun i => (base s + i) mod K s) (range 0 (N s)))) eqn:Hin.
    + rewrite (rdt_send_accepted s msg HK Hin). now exists true.
    + rewrite (rdt_send_rejected s msg HK Hin). now exists false.
  - intros packt. destruct (corrupted packt) eqn:Hbad.
    { unfold rdt_rcv. now rewrite Hbad. }
    destruct (sndpkt s !! seq_num packt) as [p|] eqn:Hbuf.
    2:{ now rewrite (rdt_rcv_unbuffered _ _ Hbuf). }
    rewrite (rdt_rcv_buffered _ _ Hbad) by eauto.
    destruct (stop_timer_cancels (seq_num packt)
                (set_acknowledged (<[seq_num packt := true]> (acknowledged s)) s))
      as (e & Hstop & _); [apply Hlive|].
    rewrite Hstop.
    match goal with
    | |- context [slide ?f ?s2] =>
        destruct (sender_slide_spec f s2) as (n & _ & _ & _ & Hslide);
          [destruct s; exact HK | reflexivity |]
    end.
    now rewrite Hslide.
  - intros seq. destruct (timers s !! seq) as [pid|] eqn:Ht.
    + rewrite start_timer_running by eauto. reflexivity.
    + now rewrite (start_timer_fresh _ _ Ht).
  - intros seq.
    destruct (stop_timer_cancels seq s) as (e & Hstop & _).
    { intros pid Ht. specialize (Hlive (acknowledged s) seq pid).
      destruct s; exact (Hlive Ht). }
    rewrite Hstop. simpl. split; [reflexivity | apply lookup_delete_eq].
  - rewrite print_status_cases.
    destruct (Z.eqb_spec (K s) 0); [contradiction | reflexivity].
Qed.

(** The state after [stale_ack_schedule]: yet another duplicate
    acknowledgment is processed without an exception. *)
Lemma reachable_sender_never_raises_witness :
  fst (rdt_rcv (ack_for 1)
         (default init (run stale_ack_schedule (configure 4 8 init))))
  = Return tt.
Proof.
  destruct (reachable_sender_never_raises 4 8 stale_ack_schedule
              (default init (run stale_ack_schedule (configure 4 8 init))))
    as (_ & Hrcv & _).
  - lia.
  - vm_compute. reflexivity.
  - apply Hrcv.
Defined.

Lemma slide_only_deletes (fuel : nat) (s s' : state) (o : outcome unit) :
  slide fuel s = (o, s') ->
  forall k b, acknowledged s' !! k = Some b -> acknowledged s !! k = Some b.
Proof.
  revert s s' o. induction fuel as [|fuel IH]; intros s s' o; simpl; unfold_monad.
  - now intros [= <- <-].
  - unfold slide_cond, py_del, py_mod.
    destruct (acknowledged s !! base s) as [[|]|] eqn:Hack; simpl;
      try (now intros [= <- <-]).
    destruct (K s =? 0); simpl.
    + intros [= <- <-] k b Hk. simpl in Hk.
      apply lookup_delete_Some in Hk. tauto.
    + intros Hrun k b Hk. apply (IH _ _ _ Hrun) in Hk. simpl in Hk.
      apply lookup_delete_Some in Hk. tauto.
Qed.

Lemma timeout_action_returns (seq : Z) (s s' : state) :
  timeout_action seq s = (Return tt, s') ->
  s' = s \/
  exists p,
    sndpkt s !! seq = Some p /\
    s' = set_env (env s') (set_timers (timers s')
           (set_channel (channel s ++ [p])
              (set_total_packets_sent (total_packets_sent s + 1)
                 (set_num_retransmissions (num_retransmissions s + 1) s)))).
Proof.
  destruct (sndpkt s !! seq) as [p|] eqn:Hp.
  - destruct (timers s !! seq) as [pid|] eqn:Ht.
    + rewrite (timeout_action_buffered _ _ _ _ Hp Ht). intros [= <-].
      right. exists p. split; [reflexivity|]. now destruct s.
    + unfold timeout_action. unfold_monad.
      rewrite bool_decide_eq_true_2 by (apply elem_of_dom; eauto).
      unfold py_getitem, py_del, udt_send. unfold_monad.
      rewrite Hp. simpl. rewrite Ht. simpl. discriminate.
  - rewrite (timeout_action_unbuffered _ _ Hp). intros [= <-]. now left.
Qed.

Lemma books_inv_ext (k0 : Z) (s s' : state) :
  K s' = K s -> sndpkt s' = sndpkt s -> acknowledged s' = acknowledged s ->
  channel s' = channel s -> total_packets_sent s' = total_packets_sent s ->
  num_retransmissions s' = num_retransmissions s ->
  books_inv k0 s -> books_inv k0 s'.
Proof.
  unfold books_inv. intros -> -> -> -> -> ->. tauto.
Qed.

Lemma fire_books_inv (k0 : Z) (ev : event) (s s' : state) :
  0 < k0 -> books_inv k0 s -> fire ev s = Some s' -> books_inv k0 s'.
Proof.
  intros Hk0 Hinv Hfire.
  destruct ev as [msg|packt|pid|pid|pid].
  - apply fire_send_cases in Hfire as [->|(HK0 & Hin & Hrun)]; [assumption|].
    rewrite (rdt_send_accepted s msg HK0 Hin) in Hrun. injection Hrun as <-.
    destruct Hinv as (HK & Hsp & Hak & Hch & Htot & Hnr).
    assert (Hnext : 0 <= nextseqnum s < k0).
    { rewrite <- HK. apply (py_in_window_distance _ (base s) (N s)); [lia|].
      exact Hin. }
    unfold books_inv. simpl.
    split; [assumption|]. split; [|split; [|split; [|split]]].
    + intros k p Hp. apply lookup_insert_Some in Hp as [[<- <-]|[_ Hp]]; eauto.
    + intros k b Hb. destruct (Hak k b Hb) as [-> Hsome].
      split; [reflexivity|]. apply lookup_insert_is_Some'. now right.
    + apply Forall_app. split.
      * eapply Forall_impl; [exact Hch|]. intros p (Hc & Hr & Hsome).
        split; [assumption|]. split; [assumption|].
        apply lookup_insert_is_Some'. now right.
      * constructor; [|constructor]. simpl.
        split; [reflexivity|]. split; [assumption|].
        rewrite lookup_insert_eq. eauto.
    + rewrite length_app. simpl. lia.
    + lia.
  - simpl in Hfire.
    destruct (corrupted packt) eqn:Hbad.
    { unfold rdt_rcv in Hfire. rewrite Hbad in Hfire. simpl in Hfire.
      now injection Hfire as <-. }
    destruct (sndpkt s !! seq_num packt) as [p|] eqn:Hbuf.
    2:{ rewrite (rdt_rcv_unbuffered _ _ Hbuf) in Hfire. simpl in Hfire.
        now injection Hfire as <-. }
    rewrite (rdt_rcv_buffered _ _ Hbad) in Hfire by eauto.
    destruct (stop_timer _ _) as [[[]|ex] s2] eqn:Hstop; [|discriminate].
    apply stop_timer_frame in Hstop as (e & t & ->).
    destruct (slide _ _) as [[[]|ex] s3] eqn:Hslide; [|discriminate].
    simpl in Hfire. injection Hfire as <-.
    pose proof (slide_only_deletes _ _ _ _ Hslide) as Hsub.
    apply slide_frame in Hslide as (b & a & ->). simpl in Hsub.
    destruct Hinv as (HK & Hsp & Hak & Hch & Htot & Hnr).
    unfold books_inv. simpl.
    split; [assumption|]. split; [assumption|].
    split; [|split; [assumption|split; assumption]].
    intros k v Hv. apply Hsub in Hv.
    apply lookup_insert_Some in Hv as [[<- <-]|[_ Hv]]; eauto.
  - simpl in Hfire.
    destruct (env s !! pid) as [[q [| |[|]|]]|]; try discriminate;
      unfold timer_behavior_enter in Hfire; unfold_monad; simpl in Hfire;
      injection Hfire as <-;
      match goal with
      | |- context [set_pstate ?i ?st ?x] =>
          destruct (set_pstate_frame i st x) as [e ->]
      end; now apply (books_inv_ext k0 s).
  - simpl in Hfire.
    destruct (env s !! pid) as [[q [| |[|]|]]|]; try discriminate.
    unfold timer_behavior_elapsed in Hfire. unfold_monad.
    destruct (timeout_action q _) as [[[]|ex] s1] eqn:Hrun; [|discriminate].
    simpl in Hfire. injection Hfire as <-.
    destruct (set_pstate_frame pid Triggered s1) as [e ->].
    apply timeout_action_returns in Hrun as [->|(p & Hp & ->)].
    + now apply (books_inv_ext k0 s).
    + simpl in Hp.
      destruct Hinv as (HK & Hsp & Hak & Hch & Htot & Hnr).
      destruct (Hsp _ _ Hp) as (Hseq & Hc & Hr).
      unfold books_inv. simpl.
      split; [assumption|]. split; [assumption|]. split; [assumption|].
      split; [|split].
      * apply Forall_app. split; [assumption|].
        constructor; [|constructor].
        rewrite Hseq. split; [assumption|]. split; [assumption|]. eauto.
      * rewrite length_app. simpl. lia.
      * lia.
  - simpl in Hfire.
    destruct (env s !! pid) as [[q [| |[|]|]]|]; try discriminate.
    unfold timer_behavior_interrupted in Hfire. unfold_monad. simpl in Hfire.
    injection Hfire as <-.
    match goal with
    | |- context [set_pstate ?i ?st ?x] =>
        destruct (set_pstate_frame i st x) as [e ->]
    end. now apply (books_inv_ext k0 s).
Qed.

Lemma run_books_inv (n0 k0 : Z) (evs : list event) (s : state) :
  0 < k0 -> run evs (configure n0 k0 init) = Some s -> books_inv k0 s.
Proof.
  intros Hk0. unfold run. apply (run_under_invariant _ (books_inv k0)).
  - intros ev s0 s1 _. now apply fire_books_inv.
  - unfold books_inv. simpl.
    split; [reflexivity|].
    split; [intros k p Hp; rewrite lookup_empty in Hp; discriminate|].
    split; [intros k b Hb; rewrite lookup_empty in Hb; discriminate|].
    split; [constructor|]. split; [reflexivity | lia].
Qed.

(** X6.  In every state a sender with a positive modulus [K] reaches:
    each record of [sndpkt] sits under its own [seq_num], which is in
    [0..K-1], and is not corrupted; [acknowledged] marks only buffered
    sequence numbers, and only with [True]; and every packet handed to the
    channel is uncorrupted, has a [seq_num] in [0..K-1], and its sequence
    number is still buffered. *)
Theorem sender_records_wellformed
    (n0 k0 : Z) (evs : list event) (s : state) :
  0 < k0 ->
  run evs (configure n0 k0 init) = Some s ->
  (forall k p, sndpkt s !! k = Some p ->
     seq_num p = k /\ corrupted p = false /\ 0 <= k < K s) /\
  (forall k b, acknowledged s !! k = Some b ->
     b = true /\ is_Some (sndpkt s !! k)) /\
  Forall (fun p => corrupted p = false /\ 0 <= seq_num p < K s /\
                   is_Some (sndpkt s !! seq_num p)) (channel s).
Proof.
  intros Hk0 Hrun.
  destruct (run_books_inv _ _ _ _ Hk0 Hrun) as (-> & Hsp & Hak & Hch & _).
  auto.
Qed.

Lemma sender_records_wellformed_witness :
  Forall (fun p => corrupted p = false /\ 0 <= seq_num p < 16)
         (channel (default init (run wrap_schedule init))).
Proof.
  destruct (sender_records_wellformed 16 16 wrap_schedule
              (default init (run wrap_schedule init))) as (_ & _ & Hch).
  - lia.
  - vm_compute. reflexivity.
  - eapply Forall_impl; [exact Hch|]. simpl. intros p (Hc & Hr & _).
    split; [exact Hc|]. exact Hr.
Defined.

(** X7.  In every state a sender with a positive modulus reaches,
    [total_packets_sent] is exactly the number of packets handed to the
    channel so far, and [num_retransmissions] lies between zero and that
    number: every transmission is counted once, and a retransmission is
    also a transmission. *)
Theorem sender_counters_count_channel
    (n0 k0 : Z) (evs : list event) (s : state) :
  0 < k0 ->
  run evs (configure n0 k0 init) = Some s ->
  total_packets_sent s = Z.of_nat (length (channel s)) /\
  0 <= num_retransmissions s <= total_packets_sent s.
Proof.
  intros Hk0 Hrun.
  destruct (run_books_inv _ _ _ _ Hk0 Hrun) as (_ & _ & _ & _ & Htot & Hnr).
  now split.
Qed.

Lemma sender_counters_count_channel_witness :
  let s := default init (run wrap_schedule init) in
  total_packets_sent s = Z.of_nat (length (channel s)) /\
  0 <= num_retransmissions s <= total_packets_sent s.
Proof.
  intros s. apply (sender_counters_count_channel 16 16 wrap_schedule s).
  - lia.
  - vm_compute. reflexivity.
Defined.

(** [stop_timer] on a timer whose process SimPy has not started yet. *)
Lemma stop_timer_created (seq : Z) (s : state) (pid : nat) (q : Z) :
  timers s !! seq = Some pid ->
  env s !! pid = Some (q, Created) ->
  stop_timer seq s =
    (Return tt,
     set_timers (delete seq (timers s))
       (set_env (<[pid := (q, Interrupted false)]> (env s)) s)).
Proof.
  intros Ht He. unfold stop_timer, interrupt, py_del, triggered. unfold_monad.
  rewrite Ht, He. simpl. rewrite He. simpl. now rewrite Ht.
Qed.

(** X8.  Starting a timer and stopping it again is a round trip on the
    timer table: for a sequence number without a timer entry,
    [start_timer] creates the entry, and [stop_timer] right after it
    returns normally and leaves the sender as it was before both calls,
    except for one more process in the environment, interrupted before it
    ever ran. *)
Theorem start_then_stop_timer (s : state) (seq : Z) :
  timers s !! seq = None ->
  let s1 := snd (start_timer seq s) in
  timers s1 !! seq = Some (length (env s)) /\
  stop_timer seq s1 =
    (Return tt, set_env (env s ++ [(seq, Interrupted false)]) s).
Proof.
  intros Hnone s1. subst s1. rewrite (start_timer_fresh _ _ Hnone). simpl.
  split; [apply lookup_insert_eq|].
  erewrite (stop_timer_created seq _ (length (env s)) seq).
  - simpl. rewrite delete_insert_eq, delete_id by assumption.
    f_equal.
    replace (length (env s)) with (length (env s) + 0)%nat at 1 by lia.
    rewrite insert_app_r. simpl. now destruct s.
  - simpl. apply lookup_insert_eq.
  - simpl. rewrite lookup_app_r by lia. now rewrite Nat.sub_diag.
Qed.

Lemma start_then_stop_timer_witness :
  stop_timer 5 (snd (start_timer 5 init))
  = (Return tt, set_env [(5, Interrupted false)] init).
Proof.
  apply (proj2 (start_then_stop_timer init 5 eq_refl)).
Defined.

(** After [wrap_schedule] the timer process 16 of sequence number 2 is
    waiting: its timeout retransmits. *)
Lemma reachable_timeout_retransmits_witness :
  let s := default init (run wrap_schedule init) in
  exists p s',
    sndpkt s !! 2 = Some p /\
    timers s !! 2 = Some 16%nat /\
    fire (Proc_timeout 16) s = Some s' /\
    channel s' = channel s ++ [p] /\
    num_retransmissions s' = num_retransmissions s + 1 /\
    timers s' !! 2 = Some (length (env s)).
Proof.
  intros s.
  apply (reachable_timeout_retransmits 16 16 wrap_schedule s 16 2).
  - vm_compute. reflexivity.
  - reflexivity.
Defined.

End SenderExtras.

(** ** Slides in closed form *)

Lemma bases_length (k b : Z) (n : nat) : length (bases k b n) = n.
Proof. revert b. induction n as [|n IH]; intros b; simpl; [|rewrite IH]; reflexivity. Qed.

Lemma bases_app (k b : Z) (m n : nat) :
  bases k b (m + n) = bases k b m ++ bases k (base_after k b m) n.
Proof.
  revert b. induction m as [|m IH]; intros b; simpl; [reflexivity|].
  now rewrite IH.
Qed.

Lemma base_after_add (k b : Z) (m n : nat) :
  base_after k b (m + n) = base_after k (base_after k b m) n.
Proof.
  revert b. induction m as [|m IH]; intros b; simpl; [reflexivity|]. apply IH.
Qed.

Lemma base_after_range (k b : Z) (n : nat) :
  0 <= b < k -> 0 <= base_after k b n < k.
Proof.
  revert b. induction n as [|n IH]; intros b Hb; simpl; [assumption|].
  apply IH. apply Z.mod_pos_bound. lia.
Qed.

Lemma base_after_closed (k b : Z) (n : nat) :
  0 <= b < k -> base_after k b n = (b + Z.of_nat n) mod k.
Proof.
  revert b. induction n as [|n IH]; intros b Hb.
  - simpl. rewrite Z.add_0_r. symmetry. now apply Z.mod_small.
  - cbn [base_after]. rewrite IH by (apply Z.mod_pos_bound; lia).
    rewrite Zplus_mod_idemp_l. f_equal. lia.
Qed.

Lemma lookup_delete_all_Some {V} (ks : list Z) (d : gmap Z V) (k : Z) (v : V) :
  delete_all ks d !! k = Some v <-> (~ k ∈ ks) /\ d !! k = Some v.
Proof.
  unfold delete_all. revert d. induction ks as [|k0 ks IH]; intros d; simpl.
  - split; [intros Hv; split; [apply not_elem_of_nil | assumption] | tauto].
  - rewrite IH, lookup_delete_Some, not_elem_of_cons.
    split; intros H; repeat split; try tauto; intros ->; tauto.
Qed.

Lemma Forall2_map_eq {A B} (f : B -> A) (l : list A) (l' : list B) :
  Forall2 (fun a b => f b = a) l l' -> map f l' = l.
Proof. induction 1; simpl; congruence. Qed.

(** ** More on the receiver *)

Module ReceiverExtras.
Import rdt_Receiver ReceiverTheory.

Lemma rdt_rcv_corrupted (s : state) (packt : Packet) :
  corrupted packt = true -> rdt_rcv packt s = (Return tt, s).
Proof. intros Hbad. unfold rdt_rcv. now rewrite Hbad. Qed.

(** [rdt_rcv] for an uncorrupted packet outside the window. *)
Lemma rdt_rcv_outside (s : state) (packt : Packet) :
  corrupted packt = false ->
  K s <> 0 ->
  py_in (seq_num packt)
    (map (fun i => (base s + i) mod K s) (range 0 (receiving_window s))) = false ->
  rdt_rcv packt s =
    (Return tt,
     {| channel := channel s ++ [new_Packet (seq_num packt) "ACK" (ack_packet_length s)];
        receiving_app := receiving_app s;
        ack_packet_length := ack_packet_length s;
        K := K s;
        expectedseqnum := expectedseqnum s;
        receiving_window := receiving_window s;
        base := base s;
        sndpkt := new_Packet (seq_num packt) "ACK" (ack_packet_length s);
        total_packets_sent := total_packets_sent s + 1;
        num_retransmissions := num_retransmissions s + 1;
        received_packets := received_packets s |}).
Proof.
  intros Hok HK Hout. unfold rdt_rcv. rewrite Hok. simpl. unfold udt_send.
  unfold_monad. simpl. now rewrite (window_Return _ _ _ HK), Hout.
Qed.

(** The delivery loop keeps every buffered key less than [n] steps ahead
    of [base]. *)
Lemma slide_keeps_window (n : Z) (fuel : nat) (s s' : state) (o : outcome unit) :
  0 <= base s < K s ->
  (forall key, is_Some (received_packets s !! key) ->
     exists j, 0 <= j < n /\ key = (base s + j) mod K s) ->
  slide fuel s = (o, s') ->
  forall key, is_Some (received_packets s' !! key) ->
    exists j, 0 <= j < n /\ key = (base s' + j) mod K s'.
Proof.
  revert s s' o. induction fuel as [|fuel IH]; intros s s' o Hbase Hkeys;
    simpl; unfold_monad.
  - now intros [= <- <-].
  - destruct (bool_decide (base s ∈ dom (received_packets s))) eqn:Hdom;
      [|now intros [= <- <-]].
    apply bool_decide_eq_true in Hdom. apply elem_of_dom in Hdom as [p Hp].
    unfold py_getitem, py_del, deliver_data. unfold_monad. simpl.
    rewrite Hp. simpl. rewrite Hp. simpl.
    assert (HK : K s <> 0) by lia.
    rewrite (py_mod_Return _ _ HK). simpl.
    apply IH; simpl.
    + apply Z.mod_pos_bound. lia.
    + intros key Hkey. apply lookup_delete_is_Some in Hkey as [Hne Hkey].
      destruct (Hkeys key Hkey) as (j & Hj & ->).
      assert (Hj0 : j <> 0).
      { intros ->. apply Hne. rewrite Z.add_0_r. symmetry.
        now apply Z.mod_small. }
      exists (j - 1). split; [lia|].
      rewrite Zplus_mod_idemp_l. f_equal. lia.
Qed.

Lemma uncorrupted_snoc (seen : list Packet) (packt : Packet) :
  uncorrupted (seen ++ [packt]) =
    uncorrupted seen ++ (if corrupted packt then [] else [packt]).
Proof.
  unfold uncorrupted. rewrite List.filter_app. simpl.
  now destruct (corrupted packt).
Qed.

(** One arrival keeps the books. *)
Lemma rdt_rcv_books_inv
    (n0 k0 : Z) (seen delivered : list Packet) (s : state) (packt : Packet) :
  books_inv n0 k0 seen delivered s ->
  exists delivered',
    fst (rdt_rcv packt s) = Return tt /\
    books_inv n0 k0 (seen ++ [packt]) delivered' (snd (rdt_rcv packt s)).
Proof.
  intros (HK & Hn & Hbase & Hhead & Hbuf & Happ & Hseq & Hb & Hdl).
  assert (HK0 : K s <> 0) by lia.
  assert (Hseen : forall p, p ∈ seen -> p ∈ seen ++ [packt]).
  { intros p Hp. apply elem_of_app. now left. }
  assert (Hdl' : Forall (fun p => p ∈ seen ++ [packt] /\ corrupted p = false) delivered).
  { eapply Forall_impl; [exact Hdl|]. intros p [Hp Hc]. auto. }
  assert (Hbuf' : forall key p, received_packets s !! key = Some p ->
            seq_num p = key /\ corrupted p = false /\ p ∈ seen ++ [packt] /\
            exists j, 1 <= j < n0 /\ key = (base s + j) mod k0).
  { intros key p Hp. destruct (Hbuf key p Hp) as (? & ? & ? & ?). auto. }
  destruct (corrupted packt) eqn:Hbad.
  { exists delivered. rewrite (rdt_rcv_corrupted _ _ Hbad). simpl.
    split; [reflexivity|]. unfold books_inv. auto 10. }
  destruct (py_in (seq_num packt)
              (map (fun i => (base s + i) mod K s) (range 0 (receiving_window s))))
    eqn:Hin.
  2:{ exists delivered. rewrite (rdt_rcv_outside _ _ Hbad HK0 Hin). simpl.
      split; [reflexivity|]. unfold books_inv. simpl. auto 10. }
  pose proof (rdt_rcv_enters_loop s packt _ Hbad (window_Return _ _ _ HK0) Hin)
    as Hloop. simpl in Hloop. rewrite Hloop.
  apply py_in_window in Hin as (i & Hi & Hseqi).
  match goal with
  | |- context [slide ?f ?s1] => set (s1' := s1); set (fuel := f)
  end.
  destruct (receiver_slide_spec fuel s1' HK0) as (n & pkts & Hall & Hnd & Hexit & Hrun);
    [subst fuel s1'; simpl; lia|].
  assert (Hwin : forall key, is_Some (received_packets (snd (slide fuel s1')) !! key) ->
            exists j, 0 <= j < n0 /\
              key = (base (snd (slide fuel s1')) + j) mod K (snd (slide fuel s1'))).
  { destruct (slide fuel s1') as [o s2] eqn:Hslide.
    apply (slide_keeps_window n0 fuel s1' s2 o); [subst s1'; simpl; lia | | exact Hslide].
    subst s1'. simpl. intros key Hkey.
    apply lookup_insert_is_Some' in Hkey as [<-|[p Hp]].
    - exists i. split; [lia | exact Hseqi].
    - destruct (Hbuf key p Hp) as (_ & _ & _ & j & Hj & ->).
      exists j. rewrite HK. split; [lia | reflexivity]. }
  rewrite Hrun in *. subst s1' fuel. simpl in *.
  assert (Hstored : Forall2 (fun k q => seq_num q = k) (bases (K s) (base s) n) pkts /\
                    Forall (fun q => q ∈ seen ++ [packt] /\ corrupted q = false) pkts).
  { clear Hexit Hrun Hwin Hnd. induction Hall as [|k q ks qs Hq _ IH].
    - split; constructor.
    - destruct IH as [IH1 IH2].
      assert (Hq' : seq_num q = k /\ q ∈ seen ++ [packt] /\ corrupted q = false).
      { apply lookup_insert_Some in Hq as [[<- <-]|[_ Hq]].
        - split; [reflexivity|]. split; [|assumption].
          apply elem_of_app. right. apply list_elem_of_singleton. reflexivity.
        - destruct (Hbuf' k q Hq) as (? & ? & ? & _). auto. }
      split; constructor; tauto. }
  destruct Hstored as [Hkeys Hfrom].
  apply Forall2_map_eq in Hkeys.
  assert (Hlen : length pkts = n).
  { rewrite <- (length_map seq_num), Hkeys. apply bases_length. }
  exists (delivered ++ pkts). split; [reflexivity|].
  unfold books_inv. simpl.
  split; [assumption|]. split; [assumption|].
  split; [rewrite HK; apply base_after_range; lia|].
  split; [exact Hexit|].
  split; [|split; [|split; [|split]]].
  - intros key p Hp.
    assert (Hsome : is_Some (delete_all (bases (K s) (base s) n)
                       (<[seq_num packt := packt]> (received_packets s)) !! key))
      by eauto.
    destruct (Hwin key Hsome) as (j & Hj & Hkey).
    apply lookup_delete_all_Some in Hp as [_ Hp'].
    assert (Hfacts : seq_num p = key /\ corrupted p = false /\ p ∈ seen ++ [packt]).
    { apply lookup_insert_Some in Hp' as [[<- <-]|[_ Hp']].
      - split; [reflexivity|]. split; [assumption|].
        apply elem_of_app. right. apply list_elem_of_singleton. reflexivity.
      - destruct (Hbuf' key p Hp') as (? & ? & ? & _). auto. }
    split; [tauto|]. split; [tauto|]. split; [tauto|].
    exists j. rewrite <- HK. split; [|exact Hkey].
    assert (j <> 0); [|lia].
    intros ->. rewrite Z.add_0_r, Z.mod_small in Hkey
      by (apply base_after_range; lia).
    subst key. destruct Hsome as [v Hv]. congruence.
  - now rewrite map_app, Happ.
  - rewrite map_app, length_app, bases_app, Hseq, Hkeys, Hlen, <- Hb, HK.
    reflexivity.
  - rewrite length_app, base_after_add, <- Hb, Hlen, HK. reflexivity.
  - apply Forall_app. now split.
Qed.

Lemma receive_books_inv
    (n0 k0 : Z) (pkts seen delivered : list Packet) (s : state) :
  books_inv n0 k0 seen delivered s ->
  exists s' delivered',
    receive pkts s = Some s' /\ books_inv n0 k0 (seen ++ pkts) delivered' s'.
Proof.
  revert seen delivered s.
  induction pkts as [|packt pkts IH]; intros seen delivered s Hinv; simpl.
  - exists s, delivered. now rewrite app_nil_r.
  - destruct (rdt_rcv_books_inv n0 k0 seen delivered s packt Hinv)
      as (delivered1 & Hret & Hinv1).
    destruct (rdt_rcv packt s) as [o s1]. simpl in Hret, Hinv1. subst o.
    destruct (IH _ _ _ Hinv1) as (s' & delivered' & Hrun & Hinv').
    exists s', delivered'. split; [exact Hrun|].
    now rewrite <- app_assoc in Hinv'.
Qed.

Lemma init_books_inv (n0 k0 : Z) :
  1 < k0 -> books_inv n0 k0 [] [] (configure n0 k0 init).
Proof.
  intros Hk0. unfold books_inv. simpl.
  split; [reflexivity|]. split; [reflexivity|]. split; [lia|].
  split; [apply lookup_empty|].
  split; [intros key p Hp; rewrite lookup_empty in Hp; discriminate|].
  repeat split. constructor.
Qed.

Lemma bases_lookup (k b : Z) (n i : nat) :
  0 <= b < k -> (i < n)%nat ->
  bases k b n !! i = Some ((b + Z.of_nat i) mod k).
Proof.
  revert b i. induction n as [|n IH]; intros b i Hb Hi; [lia|].
  destruct i as [|i]; simpl.
  - rewrite Z.add_0_r, Z.mod_small by lia. reflexivity.
  - rewrite IH by (try apply Z.mod_pos_bound; lia).
    rewrite Zplus_mod_idemp_l. do 2 f_equal. lia.
Qed.

(** X9.  Whatever packets arrive in whatever order (modulus above 1),
    the receiver never raises, and what it has delivered to the
    application so far are the payloads of uncorrupted arrivals whose
    sequence numbers are 1, 2, 3, ... modulo [K], one after the other
    without a gap; [base] is the number after the last one delivered. *)
Theorem receiver_delivers_in_order (n0 k0 : Z) (pkts : list Packet) :
  1 < k0 ->
  exists (s : state) (delivered : list Packet),
    receive pkts (configure n0 k0 init) = Some s /\
    receiving_app s = map payload delivered /\
    (forall (i : nat) (p : Packet), delivered !! i = Some p ->
       seq_num p = (1 + Z.of_nat i) mod k0 /\ p ∈ pkts /\ corrupted p = false) /\
    base s = (1 + Z.of_nat (length delivered)) mod k0.
Proof.
  intros Hk0.
  destruct (receive_books_inv n0 k0 pkts [] [] _ (init_books_inv n0 k0 Hk0))
    as (s & delivered & Hrun & Hinv).
  destruct Hinv as (_ & _ & _ & _ & _ & Happ & Hseq & Hb & Hdl).
  exists s, delivered. split; [exact Hrun|]. split; [exact Happ|]. split.
  - intros i p Hp.
    assert (Hi : (i < length delivered)%nat) by (eapply lookup_lt_Some; eauto).
    split.
    + assert (Hmap : map seq_num delivered !! i = Some (seq_num p)).
      { change (map seq_num delivered) with (seq_num <$> delivered).
        rewrite list_lookup_fmap, Hp. reflexivity. }
      rewrite Hseq, bases_lookup in Hmap by lia. congruence.
    + rewrite Forall_forall in Hdl. apply Hdl.
      apply list_elem_of_lookup. eauto.
  - rewrite Hb. apply base_after_closed. lia.
Qed.

(** Scenario C of the spec as a run: 1, then 3, then 2. *)
Lemma receiver_delivers_in_order_witness :
  exists (s : state) (delivered : list Packet),
    receive [new_Packet 1 "one" 10; new_Packet 3 "three" 10; new_Packet 2 "two" 10]
            (configure 4 8 init) = Some s /\
    receiving_app s = map payload delivered /\
    (forall (i : nat) (p : Packet), delivered !! i = Some p ->
       seq_num p = (1 + Z.of_nat i) mod 8 /\
       p ∈ [new_Packet 1 "one" 10; new_Packet 3 "three" 10; new_Packet 2 "two" 10] /\
       corrupted p = false) /\
    base s = (1 + Z.of_nat (length delivered)) mod 8.
Proof.
  apply (receiver_delivers_in_order 4 8
           [new_Packet 1 "one" 10; new_Packet 3 "three" 10; new_Packet 2 "two" 10]).
  lia.
Defined.

(** X10.  After any arrivals (modulus above 1), every packet in the
    receive buffer is an uncorrupted arrival stored under its own
    sequence number, and that number lies 1 to [receiving_window - 1]
    steps ahead of [base]: the buffer never holds a packet outside the
    window, and never the packet for [base] itself, which is always
    delivered at once. *)
Theorem receiver_buffer_within_window
    (n0 k0 : Z) (pkts : list Packet) (s : state) :
  1 < k0 ->
  receive pkts (configure n0 k0 init) = Some s ->
  received_packets s !! base s = None /\
  (forall key p, received_packets s !! key = Some p ->
     seq_num p = key /\ corrupted p = false /\ p ∈ pkts /\
     exists j, 1 <= j < receiving_window s /\ key = (base s + j) mod K s).
Proof.
  intros Hk0 Hrun.
  destruct (receive_books_inv n0 k0 pkts [] [] _ (init_books_inv n0 k0 Hk0))
    as (s' & delivered & Hrun' & Hinv).
  rewrite Hrun in Hrun'. injection Hrun' as <-.
  destruct Hinv as (-> & -> & _ & Hhead & Hbuf & _).
  split; [exact Hhead | exact Hbuf].
Qed.

(** Packets 3 and 4 arrive at a receiver waiting for 1: both are
    buffered, nothing sits under [base]. *)
Lemma receiver_buffer_within_window_witness :
  let s := default init
             (receive [new_Packet 3 "three" 10; new_Packet 4 "four" 10]
                (configure 4 8 init)) in
  size (received_packets s) = 2%nat /\
  received_packets s !! base s = None.
Proof.
  intros s. split; [reflexivity|].
  apply (receiver_buffer_within_window 4 8
           [new_Packet 3 "three" 10; new_Packet 4 "four" 10] s).
  - lia.
  - vm_compute. reflexivity.
Defined.

(** *** Acknowledgments and counters *)

Lemma receiver_slide_frame (fuel : nat) (s s' : state) (o : outcome unit) :
  slide fuel s = (o, s') ->
  exists a r b, s' = set_base b (set_received_packets r (set_receiving_app a s)).
Proof.
  revert s s' o. induction fuel as [|fuel IH]; intros s s' o; simpl; unfold_monad.
  - intros [= <- <-]. exists (receiving_app s), (received_packets s), (base s).
    now destruct s.
  - destruct (bool_decide (base s ∈ dom (received_packets s))).
    + unfold py_getitem, py_del, py_mod, deliver_data. unfold_monad.
      destruct s as [c a al k ex rw b sp tot nr rp]; simpl.
      destruct (rp !! b) as [p|] eqn:Hp; simpl; rewrite ?Hp; simpl;
        [|intros [= <- <-]; exists a, rp, b; reflexivity].
      destruct (k =? 0); simpl.
      * intros [= <- <-]. exists (a ++ [payload p]), (delete b rp), b. reflexivity.
      * intros Hrun. apply IH in Hrun as (a' & r' & b' & ->).
        exists a', r', b'. reflexivity.
    + intros [= <- <-]. exists (receiving_app s), (received_packets s), (base s).
      now destruct s.
Qed.

(** What [rdt_rcv] does with an uncorrupted packet before it looks at the
    window, and what it leaves alone afterwards, whether it returns or
    raises. *)
Lemma rdt_rcv_ack_first (s s' : state) (packt : Packet) (o : outcome unit) :
  corrupted packt = false ->
  rdt_rcv packt s = (o, s') ->
  channel s' = channel s ++ [new_Packet (seq_num packt) "ACK" (ack_packet_length s)] /\
  sndpkt s' = new_Packet (seq_num packt) "ACK" (ack_packet_length s) /\
  total_packets_sent s' = total_packets_sent s + 1 /\
  ack_packet_length s' = ack_packet_length s /\
  K s' = K s /\ receiving_window s' = receiving_window s /\
  (num_retransmissions s' = num_retransmissions s \/
   (num_retransmissions s' = num_retransmissions s + 1 /\
    received_packets s' = received_packets s /\
    receiving_app s' = receiving_app s /\ base s' = base s)).
Proof.
  intros Hok. unfold rdt_rcv. rewrite Hok. simpl. unfold udt_send.
  unfold_monad. simpl.
  destruct (window _ _ _) as [w|ex]; [|intros [= <- <-]; simpl; tauto].
  destruct (py_in (seq_num packt) w).
  - intros Hrun. apply receiver_slide_frame in Hrun as (a & r & b & ->).
    simpl. tauto.
  - intros [= <- <-]. simpl. tauto.
Qed.

(** X11.  Over any run of arrivals that does not raise, with any window
    and modulus: the receiver has handed the channel exactly one
    acknowledgment per uncorrupted arrival, in arrival order, each
    carrying that arrival's own [seq_num] (never a cumulative one), and
    none for a corrupted arrival; [total_packets_sent] is their number,
    and [num_retransmissions] lies between zero and it. *)
Theorem receiver_acknowledges_each_arrival
    (n0 k0 : Z) (pkts : list Packet) (s : state) :
  receive pkts (configure n0 k0 init) = Some s ->
  channel s = map (fun p => new_Packet (seq_num p) "ACK" 10) (uncorrupted pkts) /\
  total_packets_sent s = Z.of_nat (length (uncorrupted pkts)) /\
  0 <= num_retransmissions s <= total_packets_sent s.
Proof.
  assert (Hgen : forall pkts seen s0 s,
            ack_packet_length s0 = 10 ->
            channel s0 = map (fun p => new_Packet (seq_num p) "ACK" 10) (uncorrupted seen) ->
            total_packets_sent s0 = Z.of_nat (length (uncorrupted seen)) ->
            0 <= num_retransmissions s0 <= total_packets_sent s0 ->
            receive pkts s0 = Some s ->
            channel s = map (fun p => new_Packet (seq_num p) "ACK" 10)
                          (uncorrupted (seen ++ pkts)) /\
            total_packets_sent s = Z.of_nat (length (uncorrupted (seen ++ pkts))) /\
            0 <= num_retransmissions s <= total_packets_sent s).
  { clear. intros pkts. induction pkts as [|packt pkts IH];
      intros seen s0 s Hlen Hch Htot Hnr; simpl.
    - intros [= <-]. rewrite app_nil_r. auto.
    - destruct (rdt_rcv packt s0) as [[[]|ex] s1] eqn:Hrcv; [|discriminate].
      intros Hrun.
      replace (seen ++ packt :: pkts) with ((seen ++ [packt]) ++ pkts)
        by now rewrite <- app_assoc.
      apply (IH (seen ++ [packt]) s1 s); try assumption;
        rewrite ?uncorrupted_snoc;
        destruct (corrupted packt) eqn:Hbad;
        try (rewrite (rdt_rcv_corrupted _ _ Hbad) in Hrcv;
             injection Hrcv as <-; rewrite ?app_nil_r; assumption);
        destruct (rdt_rcv_ack_first _ _ _ _ Hbad Hrcv)
          as (Hch1 & _ & Htot1 & Hlen1 & _ & _ & Hnr1).
      + congruence.
      + rewrite Hch1, map_app, Hch, Hlen. reflexivity.
      + rewrite Htot1, length_app, Htot. simpl. lia.
      + lia. }
  intros Hrun.
  apply (Hgen pkts [] (configure n0 k0 init) s); try reflexivity; try assumption.
  simpl. lia.
Qed.

Lemma receiver_acknowledges_each_arrival_witness :
  let pkts := [new_Packet 3 "three" 10; mkPacket 1 "garbled" 10 true;
               new_Packet 1 "one" 10; new_Packet 1 "one" 10] in
  let s := default init (receive pkts (configure 4 8 init)) in
  channel s = [new_Packet 3 "ACK" 10; new_Packet 1 "ACK" 10; new_Packet 1 "ACK" 10] /\
  total_packets_sent s = 3 /\
  0 <= num_retransmissions s <= total_packets_sent s.
Proof.
  intros pkts s.
  apply (receiver_acknowledges_each_arrival 4 8 pkts s).
  vm_compute. reflexivity.
Defined.

(** *** Old and new sequence numbers *)

(** X12.  When the modulus is at least twice the window ([K >= 2 N],
    [N > 0]), an uncorrupted packet whose sequence number is one of the
    [N] numbers just behind [base] is recognised as old: it is
    acknowledged and counted in [num_retransmissions], and it is neither
    buffered nor delivered, nor does [base] move. *)
Theorem recent_duplicate_only_acknowledged (s : state) (packt : Packet) (j : Z) :
  corrupted packt = false ->
  0 < receiving_window s ->
  2 * receiving_window s <= K s ->
  1 <= j <= receiving_window s ->
  seq_num packt = (base s - j) mod K s ->
  rdt_rcv packt s =
    (Return tt,
     {| channel := channel s ++ [new_Packet (seq_num packt) "ACK" (ack_packet_length s)];
        receiving_app := receiving_app s;
        ack_packet_length := ack_packet_length s;
        K := K s;
        expectedseqnum := expectedseqnum s;
        receiving_window := receiving_window s;
        base := base s;
        sndpkt := new_Packet (seq_num packt) "ACK" (ack_packet_length s);
        total_packets_sent := total_packets_sent s + 1;
        num_retransmissions := num_retransmissions s + 1;
        received_packets := received_packets s |}).
Proof.
  intros Hok Hn H2n Hj Hseq.
  apply rdt_rcv_outside; [assumption | lia |].
  destruct (py_in _ _) eqn:Hin; [exfalso | reflexivity].
  apply py_in_window_distance in Hin as [_ Hd]; [|lia].
  rewrite Hseq, Zminus_mod_idemp_l in Hd.
  replace (base s - j - base s) with (K s - j + (-1) * K s) in Hd by lia.
  rewrite Z_mod_plus_full, Z.mod_small in Hd by lia. lia.
Qed.

(** Window 4, modulus 8, [base] 2: packet 1, just delivered, arrives
    again. *)
Lemma recent_duplicate_only_acknowledged_witness :
  let s := snd (rdt_rcv (new_Packet 1 "one" 10) (configure 4 8 init)) in
  base s = 2 /\
  snd (rdt_rcv (new_Packet 1 "one" 10) s) =
    set_num_retransmissions 1
      (set_total_packets_sent 2 (set_channel (channel s ++ [new_Packet 1 "ACK" 10]) s)).
Proof.
  intros s. split; [reflexivity|].
  rewrite (recent_duplicate_only_acknowledged s (new_Packet 1 "one" 10) 1).
  - reflexivity.
  - reflexivity.
  - reflexivity.
  - change (2 * 4 <= 8). lia.
  - change (1 <= 1 <= 4). lia.
  - reflexivity.
Defined.

(** X13.  When the window is as long as the sequence space
    ([receiving_window >= K > 0], as with the constructor's 16 and 16),
    every sequence number is always inside the window: over any run of
    arrivals with sequence numbers in [0..K-1], the receiver never takes
    the branch for unexpected packets, so [num_retransmissions] stays 0,
    duplicates of delivered packets included. *)
Theorem full_window_never_counts_duplicates
    (n0 k0 : Z) (pkts : list Packet) :
  0 < k0 <= n0 ->
  Forall (fun p => 0 <= seq_num p < k0) pkts ->
  exists s,
    receive pkts (configure n0 k0 init) = Some s /\
    num_retransmissions s = 0.
Proof.
  intros Hk0 Hpkts.
  assert (Hgen : forall s0,
            K s0 = k0 -> receiving_window s0 = n0 ->
            exists s, receive pkts s0 = Some s /\
                      num_retransmissions s = num_retransmissions s0).
  { induction Hpkts as [|packt pkts Hseq _ IH]; intros s0 HK Hn; simpl.
    - now exists s0.
    - assert (Hstep : exists s1, rdt_rcv packt s0 = (Return tt, s1) /\
                K s1 = k0 /\ receiving_window s1 = n0 /\
                num_retransmissions s1 = num_retransmissions s0).
      { destruct (corrupted packt) eqn:Hbad.
        { exists s0. now rewrite (rdt_rcv_corrupted _ _ Hbad). }
        assert (HK0 : K s0 <> 0) by lia.
        assert (Hin : py_in (seq_num packt)
                        (map (fun i => (base s0 + i) mod K s0)
                             (range 0 (receiving_window s0))) = true).
        { apply py_in_window_distance; [lia|]. split; [lia|].
          pose proof (Z.mod_pos_bound (seq_num packt - base s0) (K s0)). lia. }
        pose proof (rdt_rcv_enters_loop s0 packt _ Hbad (window_Return _ _ _ HK0) Hin)
          as Hloop. simpl in Hloop. rewrite Hloop.
        match goal with
        | |- context [slide ?f ?s1] =>
            destruct (receiver_slide_spec f s1 HK0) as (n & dl & _ & _ & _ & Hrun);
              [simpl; lia|]
        end.
        rewrite Hrun. simpl. eexists. split; [reflexivity|]. simpl. auto. }
      destruct Hstep as (s1 & -> & HK1 & Hn1 & Hnr1).
      destruct (IH s1 HK1 Hn1) as (s & Hrun & Hnr).
      exists s. split; [exact Hrun | congruence]. }
  destruct (Hgen (configure n0 k0 init)) as (s & Hrun & Hnr); try reflexivity.
  now exists s.
Qed.

(** The default receiver gets packet 1 twice: the second copy is not
    counted as a duplicate. *)
Lemma full_window_never_counts_duplicates_witness :
  exists s,
    receive [new_Packet 1 "one" 10; new_Packet 1 "one" 10] (configure 16 16 init)
      = Some s /\
    num_retransmissions s = 0.
Proof.
  apply (full_window_never_counts_duplicates 16 16
           [new_Packet 1 "one" 10; new_Packet 1 "one" 10]).
  - lia.
  - repeat (constructor; [simpl; lia|]). constructor.
Defined.

(** X14.  With a zero modulus and a positive window, an uncorrupted
    packet is still acknowledged and counted first; then the window
    expression raises [ZeroDivisionError], and the buffer, the
    application and [base] are as before.  With a zero modulus and a
    window of zero or less, the window is empty and every uncorrupted
    packet is treated as unexpected. *)
Theorem receiver_zero_modulus (s : state) (packt : Packet) :
  corrupted packt = false ->
  K s = 0 ->
  let acked :=
    set_total_packets_sent (total_packets_sent s + 1)
      (set_channel (channel s ++ [new_Packet (seq_num packt) "ACK" (ack_packet_length s)])
         (set_sndpkt (new_Packet (seq_num packt) "ACK" (ack_packet_length s)) s)) in
  rdt_rcv packt s =
    if Z.ltb 0 (receiving_window s)
    then (Raise ZeroDivisionError, acked)
    else (Return tt, set_num_retransmissions (num_retransmissions s + 1) acked).
Proof.
  intros Hok HK acked. subst acked. unfold rdt_rcv. rewrite Hok. simpl.
  unfold udt_send. unfold_monad. simpl. rewrite HK, window_zero_modulus.
  destruct (Z.ltb 0 (receiving_window s)); reflexivity.
Qed.

Lemma receiver_zero_modulus_witness :
  fst (rdt_rcv (new_Packet 1 "one" 10) (configure 4 0 init))
    = Raise ZeroDivisionError /\
  channel (snd (rdt_rcv (new_Packet 1 "one" 10) (configure 4 0 init)))
    = [new_Packet 1 "ACK" 10].
Proof.
  rewrite (receiver_zero_modulus (configure 4 0 init) (new_Packet 1 "one" 10))
    by reflexivity.
  split; reflexivity.
Defined.

End ReceiverExtras.

(** ** Both ends together *)

Module LockstepTheory.
Import Lockstep.

(** One payload, all the way and back. *)
Lemma transfer_one_in_step (n k nr : Z) (done : list string) (msg : string)
    (sr : rdt_Sender.state * rdt_Receiver.state) :
  1 < k -> 0 < n -> 0 < nr ->
  in_step n k nr done sr ->
  exists sr', transfer_one msg sr = Some sr' /\ in_step n k nr (done ++ [msg]) sr'.
Proof.
  intros Hk Hn Hnr. destruct sr as [s r].
  intros (HN & HK & Hrw & HKr & Hbase & Hnext & Hbr & Hack & Htim & Hbuf & Happ
          & Hnrs & Hnrr & Htots & Htotr).
  set (b := rdt_Sender.base s) in *.
  assert (Hb : 0 <= b < k) by (rewrite Hbase; apply Z.mod_pos_bound; lia).
  assert (HK0 : rdt_Sender.K s <> 0) by lia.
  assert (HKr0 : rdt_Receiver.K r <> 0) by lia.
  unfold transfer_one.
  (* the sender accepts *)
  rewrite (SenderTheory.rdt_send_accepted s msg HK0).
  2:{ apply py_in_window. exists 0. split; [lia|].
      rewrite Hnext, Z.add_0_r. fold b. rewrite HK. symmetry.
      now apply Z.mod_small. }
  cbn [rdt_Sender.channel]. rewrite last_snoc.
  rewrite Hnext. fold b. rewrite Htim, lookup_empty.
  set (pkt := new_Packet b msg (rdt_Sender.data_packet_length s)).
  (* the receiver delivers *)
  rewrite (ReceiverTheory.rdt_rcv_enters_loop r pkt _ eq_refl
             (window_Return _ _ _ HKr0)).
  2:{ apply py_in_window. exists 0. split; [lia|].
      rewrite Hbr. fold b. rewrite Z.add_0_r, HKr. simpl. symmetry.
      now apply Z.mod_small. }
  cbn [seq_num pkt new_Packet]. rewrite Hbuf, insert_empty, map_size_singleton.
  cbn [rdt_Receiver.slide]. unfold_monad.
  cbn [rdt_Receiver.base rdt_Receiver.received_packets]. rewrite Hbr. fold b.
  rewrite bool_decide_eq_true_2
    by (apply elem_of_dom; rewrite lookup_singleton_eq; eauto).
  unfold py_getitem, py_del, rdt_Receiver.deliver_data. unfold_monad.
  rewrite lookup_singleton_eq. cbn. rewrite lookup_singleton_eq. cbn.
  rewrite (py_mod_Return _ _ HKr0). cbn. rewrite last_snoc.
  rewrite delete_singleton_eq.
  set (ack := new_Packet b "ACK" (rdt_Receiver.ack_packet_length r)).
  (* the sender takes the acknowledgment *)
  match goal with
  | |- context [rdt_Sender.rdt_rcv ack ?s1] => set (s1' := s1)
  end.
  rewrite (SenderTheory.rdt_rcv_buffered ack s1' eq_refl)
    by (subst s1'; cbn; rewrite lookup_insert_eq; eauto).
  erewrite (SenderExtras.stop_timer_created b _ (length (rdt_Sender.env s)) b);
    [| subst s1'; cbn; apply lookup_insert_eq
     | subst s1'; cbn; rewrite lookup_app_r by lia; now rewrite Nat.sub_diag].
  subst s1'. cbn. rewrite Hack, insert_empty, map_size_singleton.
  cbn [rdt_Sender.slide]. unfold_monad. unfold rdt_Sender.slide_cond. cbn.
  fold b. rewrite lookup_singleton_eq. unfold py_del. cbn.
  rewrite lookup_singleton_eq. cbn. rewrite (py_mod_Return _ _ HK0). cbn.
  fold b. rewrite delete_singleton_eq, delete_insert_eq, delete_empty.
  eexists. split; [reflexivity|].
  unfold in_step. cbn.
  rewrite length_app, HK, HKr. cbn [length].
  assert (Hnew : (b + 1) mod k = (1 + Z.of_nat (length done + 1)) mod k).
  { subst b. rewrite Hbase, Zplus_mod_idemp_l. f_equal. lia. }
  repeat split; try assumption; try reflexivity; try lia.
  now rewrite Happ.
Qed.

Lemma transfer_in_step (n k nr : Z) (msgs done : list string)
    (sr : rdt_Sender.state * rdt_Receiver.state) :
  1 < k -> 0 < n -> 0 < nr ->
  in_step n k nr done sr ->
  exists sr', transfer msgs sr = Some sr' /\ in_step n k nr (done ++ msgs) sr'.
Proof.
  intros Hk Hn Hnr. revert done sr.
  induction msgs as [|msg msgs IH]; intros done sr Hinv; simpl.
  - exists sr. now rewrite app_nil_r.
  - destruct (transfer_one_in_step n k nr done msg sr Hk Hn Hnr Hinv)
      as (sr1 & -> & Hinv1).
    destruct (IH _ _ Hinv1) as (sr' & Hrun & Hinv').
    exists sr'. split; [exact Hrun|]. now rewrite <- app_assoc in Hinv'.
Qed.

(** X15.  Over a channel that loses, corrupts and reorders nothing, with
    any modulus above 1 and any positive windows, a sender and a receiver
    fresh from [__init__] carry any list of payloads, one at a time: every
    submission is accepted, and afterwards the application has received
    exactly the submitted payloads, each once and in order, also when the
    sequence numbers wrap around.  Both windows then start at the same
    [base], equal to [nextseqnum]; no packet is buffered out of order,
    marked acknowledged or waiting for a timer; no retransmission was
    counted, and each side has sent one packet per payload. *)
Theorem lockstep_transfer_delivers (n k nr : Z) (msgs : list string) :
  1 < k -> 0 < n -> 0 < nr ->
  exists (s : rdt_Sender.state) (r : rdt_Receiver.state),
    transfer msgs (rdt_Sender.configure n k rdt_Sender.init,
                   rdt_Receiver.configure nr k rdt_Receiver.init) = Some (s, r) /\
    rdt_Receiver.receiving_app r = msgs /\
    rdt_Sender.base s = (1 + Z.of_nat (length msgs)) mod k /\
    rdt_Sender.nextseqnum s = rdt_Sender.base s /\
    rdt_Receiver.base r = rdt_Sender.base s /\
    rdt_Sender.acknowledged s = ∅ /\
    rdt_Sender.timers s = ∅ /\
    rdt_Receiver.received_packets r = ∅ /\
    rdt_Sender.num_retransmissions s = 0 /\
    rdt_Receiver.num_retransmissions r = 0 /\
    rdt_Sender.total_packets_sent s = Z.of_nat (length msgs) /\
    rdt_Receiver.total_packets_sent r = Z.of_nat (length msgs).
Proof.
  intros Hk Hn Hnr.
  destruct (transfer_in_step n k nr msgs []
              (rdt_Sender.configure n k rdt_Sender.init,
               rdt_Receiver.configure nr k rdt_Receiver.init) Hk Hn Hnr)
    as ([s r] & Hrun & Hinv).
  - unfold in_step. cbn. rewrite Z.mod_small by lia. repeat split.
  - exists s, r. split; [exact Hrun|].
    destruct Hinv as (_ & _ & _ & _ & ? & ? & ? & ? & ? & ? & ? & ? & ? & ? & ?).
    repeat split; assumption.
Qed.

(** Ten payloads through a window of 2 and a modulus of 4: the sequence
    numbers wrap around twice. *)
Lemma lockstep_transfer_delivers_witness :
  let msgs := ["a"; "b"; "c"; "d"; "e"; "f"; "g"; "h"; "i"; "j"]%string in
  exists (s : rdt_Sender.state) (r : rdt_Receiver.state),
    transfer msgs (rdt_Sender.configure 2 4 rdt_Sender.init,
                   rdt_Receiver.configure 2 4 rdt_Receiver.init) = Some (s, r) /\
    rdt_Receiver.receiving_app r = msgs /\
    rdt_Sender.base s = 3.
Proof.
  intros msgs.
  destruct (lockstep_transfer_delivers 2 4 2 msgs)
    as (s & r & Hrun & Happ & Hbase & _); try lia.
  exists s, r. split; [exact Hrun|]. split; [exact Happ|]. exact Hbase.
Defined.

End LockstepTheory.

(** ** Flow control *)

Module SenderFlow.
Import rdt_Sender SenderTheory.

Lemma run_snoc (evs : list event) (ev : event) (s0 : state) :
  run (evs ++ [ev]) s0 =
    match run evs s0 with
    | Some s => fire ev s
    | None => None
    end.
Proof.
  unfold run. revert s0. induction evs as [|e evs IH]; intros s0; simpl.
  - now destruct (fire ev s0).
  - destruct (fire e s0); [apply IH | reflexivity].
Qed.

(** A fresh sender after [j <= N] submissions and nothing else. *)
Lemma run_submissions (n k : Z) (msgs : list string) :
  1 < k -> Z.of_nat (length msgs) <= n < k ->
  exists s,
    run (map App_send msgs) (configure n k init) = Some s /\
    N s = n /\ K s = k /\ base s = 1 /\
    nextseqnum s = (1 + Z.of_nat (length msgs)) mod k /\
    acknowledged s = ∅ /\
    total_packets_sent s = Z.of_nat (length msgs) /\
    (msgs <> [] ->
     is_Some (sndpkt s !! 1) /\ timers s !! 1 = Some 0%nat /\
     exists (e : list (Z * pstate)), env s = (1, Created) :: e).
Proof.
  intros Hk. induction msgs as [|msg msgs IH] using rev_ind; intros Hlen.
  - exists (configure n k init). simpl. rewrite Z.mod_small by lia.
    do 7 (split; [reflexivity|]). intros Hne. now contradiction Hne.
  - rewrite length_app in Hlen. simpl in Hlen.
    destruct IH as (s & Hrun & HN & HK & Hbase & Hnext & Hack & Htot & Hfirst);
      [lia|].
    rewrite map_app, length_app. simpl. rewrite run_snoc, Hrun.
    assert (HK0 : K s <> 0) by lia.
    assert (Hin : py_in (nextseqnum s)
                    (map (fun i => (base s + i) mod K s) (range 0 (N s))) = true).
    { apply py_in_window. exists (Z.of_nat (length msgs)).
      rewrite HN, HK, Hbase. split; [lia | exact Hnext]. }
    simpl. rewrite (rdt_send_accepted s msg HK0 Hin). simpl.
    eexists. split; [reflexivity|]. simpl.
    split; [assumption|]. split; [assumption|]. split; [assumption|].
    split; [rewrite Hnext, HK, Zplus_mod_idemp_l; f_equal; lia|].
    split; [assumption|]. split; [lia|]. intros _.
    destruct msgs as [|m0 msgs0].
    + (* the first submission *)
      simpl in Hnext. rewrite Z.mod_small in Hnext by lia.
      injection Hrun as <-. simpl. rewrite lookup_empty. simpl.
      rewrite lookup_insert_eq. split; [eauto|]. split; [reflexivity|].
      now exists [].
    + destruct Hfirst as (Hsp & Ht & e & He); [discriminate|].
      assert (Hne : nextseqnum s <> 1).
      { rewrite Hnext. simpl length in *.
        rewrite Z.mod_small by lia. lia. }
      split; [apply lookup_insert_is_Some'; now right|].
      destruct (timers s !! nextseqnum s) eqn:Htn.
      * split; [assumption|]. now exists e.
      * rewrite lookup_insert_ne by assumption. split; [assumption|].
        rewrite He. now exists (e ++ [(nextseqnum s, Created)]).
Qed.

(** X16.  Backpressure with a window shorter than the sequence space
    ([0 < N < K]): a fresh sender accepts [N] submissions in a row and
    refuses the next one, leaving its state untouched; once the
    acknowledgment for the first packet has arrived, [base] has moved one
    step and the next submission is accepted. *)
Theorem window_fills_and_reopens (n k : Z) (msgs : list string) (msg : string) :
  1 < k -> 0 < n < k -> Z.of_nat (length msgs) = n ->
  exists s s',
    run (map App_send msgs) (configure n k init) = Some s /\
    total_packets_sent s = n /\
    rdt_send msg s = (Return false, s) /\
    fire (Chan_ack (ack_for 1)) s = Some s' /\
    base s' = 2 mod k /\
    fst (rdt_send msg s') = Return true.
Proof.
  intros Hk Hn Hlen.
  destruct (run_submissions n k msgs Hk) as
    (s & Hrun & HN & HK & Hbase & Hnext & Hack & Htot & Hfirst); [lia|].
  destruct Hfirst as (Hsp & Ht & e & He).
  { intros ->. simpl in Hlen. lia. }
  assert (HK0 : K s <> 0) by lia.
  assert (Hdist : (nextseqnum s - base s) mod K s = n).
  { rewrite Hnext, Hbase, HK, Zminus_mod_idemp_l, Hlen.
    replace (1 + n - 1) with n by lia. apply Z.mod_small. lia. }
  assert (Hfull : py_in (nextseqnum s)
                    (map (fun i => (base s + i) mod K s) (range 0 (N s))) = false).
  { destruct (py_in _ _) eqn:Hin; [|reflexivity].
    apply py_in_window_distance in Hin as [_ Hd]; lia. }
  (* the acknowledgment for packet 1 *)
  assert (Hrcv : rdt_rcv (ack_for 1) s =
            (Return tt,
             set_base (2 mod k)
               (set_acknowledged ∅
                  (set_timers (delete 1 (timers s))
                     (set_env (<[0%nat := (1, Interrupted false)]> (env s)) s))))).
  { rewrite (rdt_rcv_buffered (ack_for 1) s eq_refl Hsp).
    cbn [seq_num ack_for new_Packet].
    erewrite (SenderExtras.stop_timer_created 1 _ 0%nat 1);
      [| cbn; exact Ht | cbn; now rewrite He].
    cbn. rewrite Hack, insert_empty, map_size_singleton.
    cbn [slide]. unfold_monad. unfold slide_cond, py_del. cbn.
    rewrite Hbase, lookup_singleton_eq. cbn.
    rewrite (py_mod_Return _ _ HK0). cbn.
    rewrite delete_singleton_eq, Hbase, HK. now destruct s. }
  eexists s, _. split; [exact Hrun|]. split; [lia|].
  split; [now apply rdt_send_rejected|].
  simpl. rewrite Hrcv. simpl. split; [reflexivity|]. split; [reflexivity|].
  match goal with
  | |- fst (rdt_send msg ?s1) = _ => set (s1' := s1)
  end.
  rewrite (rdt_send_accepted s1' msg); [reflexivity | exact HK0 |].
  apply py_in_window_distance; subst s1'; cbn; [lia|].
  rewrite Hnext, HK, Hlen. split; [apply Z.mod_pos_bound; lia|].
  rewrite HN, Zminus_mod_idemp_l, Zminus_mod_idemp_r.
  replace (1 + n - 2) with (n - 1) by lia.
  rewrite Z.mod_small; lia.
Qed.

(** Scenario A of the spec: window 4, modulus 8. *)
Lemma window_fills_and_reopens_witness :
  exists s s',
    run (map App_send ["a"; "b"; "c"; "d"]%string) (configure 4 8 init) = Some s /\
    total_packets_sent s = 4 /\
    rdt_send "e" s = (Return false, s) /\
    fire (Chan_ack (ack_for 1)) s = Some s' /\
    base s' = 2 mod 8 /\
    fst (rdt_send "e" s') = Return true.
Proof.
  apply (window_fills_and_reopens 4 8 ["a"; "b"; "c"; "d"]%string "e");
    [lia | lia | reflexivity].
Defined.

End SenderFlow.
